(** * Multi-level approval workflow of the form-submission backend

    A shallow embedding of the parts of
    [src/controllers/approval.controller.js],
    [src/controllers/submission.controller.js] and
    [src/models/FormSubmission.model.js] that implement the sequential
    approval state machine, together with the properties the
    specification states about them.

    Conventions of the embedding:
    - a MongoDB collection is a finite map from document ids to documents;
    - an [ObjectId] is identified with its hexadecimal [toString()] form
      (a 24-digit string, hence never the empty, falsy, string);
    - strings are sequences of bytes; [toUpperCase] and [toLowerCase] are
      those of JavaScript on ASCII strings ([Js.isAscii]): they act on the
      letters a-z / A-Z.  The Unicode case tables are not modelled (U+017F
      and U+0131, for instance, become S and I in upper case), so a
      statement about a string that is not already fixed by an equation
      of ASCII strings assumes [Js.isAscii];
    - a JavaScript number that counts (a level, a numerical id) is an
      integer; [x + 1] on a stored number is [Js.increment], the sum in
      double precision, which is the exact sum for the safe integers
      ([Js.isSafeInteger], magnitude below 2^53); the length of an array
      is below 2^32, where every sum is exact;
    - the [Mixed] payload [data] is [required], and an empty object is
      not written to the database (the schema keeps the default
      [minimize]): in a stored document an empty [data] stands for the
      absent field ([hasPayload]);
    - a [Date] is its number of milliseconds since the epoch; the n-th
      evaluation of [new Date()] inside one request reads [clock n];
    - an HTTP handler is a function from the store and the request to the
      response and the store it leaves behind;
    - e-mail notifications are fire-and-forget collaborators whose failures
      are caught and logged; they never touch a submission and are left out. *)

From Stdlib Require Import Ascii String ZArith QArith Qround Sorted.
From stdpp Require Import gmap strings list fin_maps pretty.

Local Open Scope string_scope.
Local Open Scope Z_scope.

(** ** Strings *)

Module Js.

Definition upperAscii (c : ascii) : ascii :=
  let n := N_of_ascii c in
  if ((97 <=? n) && (n <=? 122))%N then ascii_of_N (n - 32) else c.

Definition lowerAscii (c : ascii) : ascii :=
  let n := N_of_ascii c in
  if ((65 <=? n) && (n <=? 90))%N then ascii_of_N (n + 32) else c.

Fixpoint mapString (f : ascii -> ascii) (s : string) : string :=
  match s with
  | EmptyString => EmptyString
  | String c r => String (f c) (mapString f r)
  end.

(** [String.prototype.toUpperCase] *)
Definition toUpperCase : string -> string := mapString upperAscii.

(** [String.prototype.toLowerCase] *)
Definition toLowerCase : string -> string := mapString lowerAscii.

(** The strings on which the two conversions above are those of
    JavaScript: every character is below U+0080. *)
Fixpoint isAscii (s : string) : bool :=
  match s with
  | EmptyString => true
  | String c r => (N_of_ascii c <? 128)%N && isAscii r
  end.

(** [Number.isSafeInteger] on a number that holds an integer. *)
Definition isSafeInteger (x : Z) : bool :=
  (- 2 ^ 53 <? x) && (x <? 2 ^ 53).

(** [x + 1] on a number that holds an integer, in double precision. The
    sum is exact from -2^53 to 2^53. Between 2^53 and 2^54 in magnitude
    the numbers are the even integers: the sum lies half-way between two
    of them and is rounded to the one whose significand is even. From
    2^54 on the sum is rounded back to [x]. *)
Definition increment (x : Z) : Z :=
  if (- 2 ^ 53 <=? x) && (x <? 2 ^ 53) then x + 1
  else if Z.abs x <? 2 ^ 54 then (if Z.even (x / 2) then x else x + 2)
  else x.

End Js.

(** ** Data model (FormSubmission.model.js and the documents it refers to) *)

Abbreviation ObjectId := string (only parsing).
Abbreviation Time := Z (only parsing).

(** The [Mixed] payload of a submission: field id to value. *)
Abbreviation Data := (list (string * string)) (only parsing).

(** One element of [approvalHistory]. *)
Record HistoryEntry := mkHistoryEntry {
  h_level : Z;
  h_approverId : ObjectId;
  h_status : string;
  h_comments : option string;
  h_actionedAt : Time
}.

(** [templateModel: enum ['FormTemplate', 'Form']] *)
Inductive TemplateModel := FormTemplateModel | FormModel.

(** The fields of [formSubmissionSchema] the workflow reads or writes.
    ([templateName], the numerical ids, [assignmentId], [files] and the
    [createdAt]/[updatedAt] bookkeeping are not part of the workflow.) *)
Record Submission := mkSubmission {
  templateId : ObjectId;
  templateModel : TemplateModel;
  plantId : option ObjectId;
  companyId : option ObjectId;
  submittedBy : option ObjectId;
  data : Data;
  status : string;
  currentLevel : Z;
  approvalHistory : list HistoryEntry;
  submittedAt : option Time;
  approvedAt : option Time;
  rejectedAt : option Time;
  approvedBy : option ObjectId;
  rejectedBy : option ObjectId
}.

(** One level of an approval flow, as stored: [{level, approverId}]. *)
Record FlowEntry := mkFlowEntry {
  level : Z;
  approverId : option ObjectId
}.

Abbreviation Flow := (list FlowEntry) (only parsing).

(** A [Form] or [FormTemplate] document: a template carries its chain as
    [workflow], a form as [approvalFlow]; either field may be absent. *)
Record Template := mkTemplate {
  workflow : option Flow;
  approvalFlow : option Flow;
  t_plantId : option ObjectId;
  t_companyId : option ObjectId
}.

Record User := mkUser {
  u_name : string;
  u_email : string
}.

(** The database: one finite map per collection. *)
Record Store := mkStore {
  submissions : gmap string Submission;
  forms : gmap string Template;
  formTemplates : gmap string Template;
  users : gmap string User
}.

(** What a handler sends back. *)
Inductive Response :=
| Ok200 (message : string) (doc : Submission)
| Created201 (message : string) (doc : Submission)
| Forbidden403 (message : string)
| NotFound404 (message : string)
| ServerError500 (message : string).

(** ** Schema validation run by [save()] and [create()]

    [status] and [approvalHistory.status] are declared with [enum] and
    [data] with [required: true]; Mongoose validates a document against
    its schema before it writes it and rejects the promise otherwise. *)

Definition statusEnum : list string :=
  ["DRAFT"; "PENDING_APPROVAL"; "APPROVED"; "REJECTED"; "SUBMITTED"].

Definition historyStatusEnum : list string :=
  ["APPROVED"; "REJECTED"; "SUBMITTED"].

Definition inEnum (enum : list string) (s : string) : bool :=
  bool_decide (s ∈ enum).

Definition historyValid (h : list HistoryEntry) : bool :=
  forallb (fun e => inEnum historyStatusEnum (h_status e)) h.

(** The two [enum] validators. *)
Definition validate (sub : Submission) : bool :=
  inEnum statusEnum (status sub) && historyValid (approvalHistory sub).

(** [data: { type: Mixed, required: true }] on a document read from the
    database.  With the default [minimize] an empty object is not
    written, so the loaded document has a [data] field exactly when the
    payload is not empty. *)
Definition hasPayload (sub : Submission) : bool :=
  negb (bool_decide (data sub = [])).

(** ** Field updates of a loaded submission document *)

Definition set_data (d : Data) (s : Submission) : Submission :=
  mkSubmission (templateId s) (templateModel s) (plantId s) (companyId s)
    (submittedBy s) d (status s) (currentLevel s) (approvalHistory s)
    (submittedAt s) (approvedAt s) (rejectedAt s) (approvedBy s) (rejectedBy s).

Definition set_status (v : string) (s : Submission) : Submission :=
  mkSubmission (templateId s) (templateModel s) (plantId s) (companyId s)
    (submittedBy s) (data s) v (currentLevel s) (approvalHistory s)
    (submittedAt s) (approvedAt s) (rejectedAt s) (approvedBy s) (rejectedBy s).

Definition set_currentLevel (v : Z) (s : Submission) : Submission :=
  mkSubmission (templateId s) (templateModel s) (plantId s) (companyId s)
    (submittedBy s) (data s) (status s) v (approvalHistory s)
    (submittedAt s) (approvedAt s) (rejectedAt s) (approvedBy s) (rejectedBy s).

(** [submission.approvalHistory.push(e)] *)
Definition push_history (e : HistoryEntry) (s : Submission) : Submission :=
  mkSubmission (templateId s) (templateModel s) (plantId s) (companyId s)
    (submittedBy s) (data s) (status s) (currentLevel s)
    (approvalHistory s ++ [e])
    (submittedAt s) (approvedAt s) (rejectedAt s) (approvedBy s) (rejectedBy s).

Definition set_approved (at_ : Time) (by_ : ObjectId) (s : Submission) : Submission :=
  mkSubmission (templateId s) (templateModel s) (plantId s) (companyId s)
    (submittedBy s) (data s) (status s) (currentLevel s) (approvalHistory s)
    (submittedAt s) (Some at_) (rejectedAt s) (Some by_) (rejectedBy s).

Definition set_rejected (at_ : Time) (by_ : ObjectId) (s : Submission) : Submission :=
  mkSubmission (templateId s) (templateModel s) (plantId s) (companyId s)
    (submittedBy s) (data s) (status s) (currentLevel s) (approvalHistory s)
    (submittedAt s) (approvedAt s) (Some at_) (approvedBy s) (Some by_).

(** [await submission.save()]: validate, then write the document back.
    [present] tells whether the document in memory has a [data] field
    (the [required] validator); the [enum] validators read the document.
    Written with [minimize], an empty [data] is the absent field of the
    next read. *)
Definition save (id : ObjectId) (present : bool) (sub : Submission)
    (st : Store) : option Store :=
  if present && validate sub
  then Some (mkStore (<[id := sub]> (submissions st)) (forms st)
                     (formTemplates st) (users st))
  else None.

(** ** approval.controller.js: processApproval *)

Module Approval.

Record Body := mkBody {
  submissionId : ObjectId;
  b_status : option string;
  b_comments : option string;
  b_data : option Data
}.

(** [.populate({path: "templateId", ...})]: [refPath: 'templateModel']
    selects the collection; a dangling reference populates to [null]. *)
Definition populateTemplate (st : Store) (sub : Submission) : option Template :=
  match templateModel sub with
  | FormTemplateModel => formTemplates st !! templateId sub
  | FormModel => forms st !! templateId sub
  end.

(** [const flow = form?.approvalFlow || [];] (an array, even empty, is truthy) *)
Definition flowOf (form : option Template) : Flow :=
  match form with
  | Some f => match approvalFlow f with Some fl => fl | None => [] end
  | None => []
  end.

(** [flow.find(f => f.level === lvl)] *)
Definition findLevel (flow : Flow) (lvl : Z) : option FlowEntry :=
  List.find (fun f => level f =? lvl) flow.

(** [currentApprover.approverId?._id?.toString() ||
     currentApprover.approverId?.toString()] after the nested populate of
    [approvalFlow.approverId]: the user document when it exists, [null]
    (giving [undefined]) when the reference is absent or dangling. *)
Definition approverIdString (st : Store) (e : FlowEntry) : option string :=
  match approverId e with
  | Some a => match users st !! a with Some _ => Some a | None => None end
  | None => None
  end.

(** The authorization gate: [None] lets the action through, [Some msg]
    is the 403 that is returned. *)
Definition checkApprover (st : Store) (flow : Flow) (sub : Submission)
    (userId : ObjectId) : option string :=
  if (length flow =? 0)%nat then None
  else match findLevel flow (currentLevel sub) with
       | None => Some "No approver found for this level"
       | Some currentApprover =>
           if bool_decide (approverIdString st currentApprover = Some userId)
           then None
           else Some "You are not the authorized approver for this level"
       end.

(** The actor is let through: the flow is empty, or the actor is the
    approver of the entry found at the current level. *)
Definition authorized (st : Store) (flow : Flow) (sub : Submission)
    (uid : ObjectId) : Prop :=
  flow = [] \/
  exists e, findLevel flow (currentLevel sub) = Some e
            /\ approverIdString st e = Some uid.

(** The in-memory mutations between the gate and [save()], for a status
    string [s]. *)
Definition applyAction (clock : nat -> Time) (flow : Flow) (userId : ObjectId)
    (s : string) (comments : option string) (newData : option Data)
    (sub : Submission) : Submission :=
  let sub1 := match newData with Some d => set_data d sub | None => sub end in
  let sub2 := push_history
                (mkHistoryEntry (currentLevel sub1) userId (Js.toUpperCase s)
                                comments (clock 0%nat)) sub1 in
  if bool_decide (Js.toLowerCase s = "rejected") then
    set_rejected (clock 1%nat) userId (set_status "REJECTED" sub2)
  else
    let nextLevel := Js.increment (currentLevel sub2) in
    match findLevel flow nextLevel with
    | Some _ =>
        set_status "PENDING_APPROVAL" (set_currentLevel nextLevel sub2)
    | None =>
        set_currentLevel (Z.of_nat (length flow) + 1)
          (set_approved (clock 1%nat) userId (set_status "APPROVED" sub2))
    end.

(** [if (data) { submission.data = data; ... }]: the document in memory
    has a payload when the request sets one (an object, even empty, is
    truthy) or when the loaded document has one. *)
Definition payloadPresent (newData : option Data) (sub : Submission) : bool :=
  match newData with
  | Some _ => true
  | None => hasPayload sub
  end.

(** The payload the document will be written with is not empty. *)
Definition carriesPayload (newData : option Data) (sub : Submission) : Prop :=
  match newData with
  | Some d => d <> []
  | None => data sub <> []
  end.

(** [processApproval]: load the submission with its populated template
    (404 when absent), pass the gate (403), mutate the loaded document,
    save it (a rejected promise ends in the [catch]: 500) and answer with
    the document. *)
Definition processApproval (clock : nat -> Time) (st : Store)
    (userId : ObjectId) (body : Body) : Response * Store :=
  match submissions st !! submissionId body with
  | None => (NotFound404 "Submission not found", st)
  | Some submission =>
      let form := populateTemplate st submission in
      let flow := flowOf form in
      match checkApprover st flow submission userId with
      | Some msg => (Forbidden403 msg, st)
      | None =>
          match b_status body with
          | None => (ServerError500 "Failed to process approval", st)
          | Some s =>
              let submission' :=
                applyAction clock flow userId s (b_comments body)
                            (b_data body) submission in
              match save (submissionId body)
                         (payloadPresent (b_data body) submission)
                         submission' st with
              | None => (ServerError500 "Failed to process approval", st)
              | Some st' =>
                  (Ok200 ("Submission " ++ s ++ " successfully") submission',
                   st')
              end
          end
      end
  end.

End Approval.

(** ** submission.controller.js *)

Module SubmissionCtl.

(** [req.user], as set by the authentication middleware. *)
Record AuthUser := mkAuthUser {
  userId : ObjectId;
  role : string;
  au_plantId : option ObjectId;
  au_companyId : option ObjectId
}.

(** [req.body.data]: a JSON string that does not parse makes
    [JSON.parse] throw; an absent value stays [undefined]. *)
Inductive DataInput :=
| BadJson
| NoData
| GoodData (d : Data).

Record CreateBody := mkCreateBody {
  c_templateId : ObjectId;
  c_plantId : option ObjectId;
  c_companyId : option ObjectId;
  c_data : DataInput;
  c_submittedBy : option ObjectId;
  c_requestedStatus : option string
}.

(** [parsedData[file.fieldname] = result.secure_url] *)
Fixpoint setField (k v : string) (d : Data) : Data :=
  match d with
  | [] => [(k, v)]
  | (k', v') :: r =>
      if bool_decide (k' = k) then (k, v) :: r else (k', v') :: setField k v r
  end.

(** [a || b] on optional ids: an ObjectId is always truthy. *)
Definition orElse {A} (a b : option A) : option A :=
  match a with Some _ => a | None => b end.

(** [template.workflow || template.approvalFlow || []] *)
Definition workflowOf (t : Template) : Flow :=
  match workflow t with
  | Some w => w
  | None => match approvalFlow t with Some a => a | None => [] end
  end.

(** [requestedStatus || "PENDING_APPROVAL"], then the flow decides unless
    the caller asked for a draft. *)
Definition finalStatusOf (requestedStatus : option string) (hasFlow : bool)
    : string :=
  let finalStatus :=
    match requestedStatus with
    | Some s => if bool_decide (s = "") then "PENDING_APPROVAL" else s
    | None => "PENDING_APPROVAL"
    end in
  if bool_decide (finalStatus <> "DRAFT")
  then (if hasFlow then "PENDING_APPROVAL" else "APPROVED")
  else finalStatus.

(** [createSubmission], for a request without [assignmentId] (the
    Assignment collection, which the handler updates after the creation
    when the request links one, is not part of the store). [newId] is
    the [_id] the database gives the new document and [uploads] the
    (field, url) pairs of the files that were stored; [clock 0] is the
    [Date.now] default of [submittedAt]. The parsed payload, an object,
    passes the [required] validator even when it is empty. *)
Definition createSubmission (clock : nat -> Time) (newId : ObjectId)
    (uploads : list (string * string)) (st : Store) (user : AuthUser)
    (body : CreateBody) : Response * Store :=
  match c_data body with
  | BadJson => (ServerError500 "Failed to create submission", st)
  | parsed =>
      let found :=
        match formTemplates st !! c_templateId body with
        | Some t => Some (t, FormTemplateModel)
        | None =>
            match forms st !! c_templateId body with
            | Some t => Some (t, FormModel)
            | None => None
            end
        end in
      match found with
      | None => (NotFound404 "Template not found", st)
      | Some (template, modelType) =>
          let wf := workflowOf template in
          let hasFlow := (0 <? length wf)%nat in
          let finalStatus := finalStatusOf (c_requestedStatus body) hasFlow in
          match parsed with
          | GoodData d =>
              let parsedData :=
                fold_left (fun acc kv => setField kv.1 kv.2 acc) uploads d in
              let newSubmission :=
                mkSubmission (c_templateId body) modelType
                  (orElse (c_plantId body)
                          (orElse (t_plantId template) (au_plantId user)))
                  (orElse (c_companyId body)
                          (orElse (t_companyId template) (au_companyId user)))
                  (orElse (c_submittedBy body) (Some (userId user)))
                  parsedData finalStatus
                  (if bool_decide (finalStatus = "PENDING_APPROVAL")
                   then 1 else 0)
                  [] (Some (clock 0%nat)) None None None None in
              match save newId true newSubmission st with
              | Some st' =>
                  (Created201
                     (if bool_decide (finalStatus = "DRAFT")
                      then "Draft saved successfully"
                      else "Submission created successfully")
                     newSubmission, st')
              | None => (ServerError500 "Failed to create submission", st)
              end
          | _ => (ServerError500 "Failed to create submission", st)
          end
      end
  end.

Record StatusBody := mkStatusBody {
  s_status : option string;
  s_comments : option string
}.

(** [updateStatus] (PATCH /:id/status, behind [authenticate] only). *)
Definition updateStatus (clock : nat -> Time) (st : Store) (user : AuthUser)
    (id : ObjectId) (body : StatusBody) : Response * Store :=
  match s_status body with
  | None => (ServerError500 "Failed to update status", st)
  | Some s =>
      let newStatus := Js.toUpperCase s in
      let stamped :=
        bool_decide (newStatus = "APPROVED")
        || bool_decide (newStatus = "REJECTED") in
      match submissions st !! id with
      | None => (NotFound404 "Submission not found", st)
      | Some submission =>
          let comments :=
            match s_comments body with
            | Some c => if bool_decide (c = "") then "" else c
            | None => ""
            end in
          let sub1 :=
            push_history
              (mkHistoryEntry (currentLevel submission) (userId user)
                 newStatus (Some comments)
                 (clock (if stamped then 1 else 0)%nat))
              submission in
          let sub2 := set_status newStatus sub1 in
          let sub3 :=
            if bool_decide (newStatus = "APPROVED")
            then set_approved (clock 0%nat) (userId user) sub2
            else if bool_decide (newStatus = "REJECTED")
            then set_rejected (clock 0%nat) (userId user) sub2
            else sub2 in
          match save id (hasPayload submission) sub3 st with
          | Some st' => (Ok200 "Status updated successfully" sub3, st')
          | None => (ServerError500 "Failed to update status", st)
          end
      end
  end.

(** *** getTemplateAnalytics *)

Record LevelStat := mkLevelStat {
  ls_level : Z;
  ls_approved : nat;
  ls_total : nat
}.

Record Analytics := mkAnalytics {
  a_total : nat;
  a_approved : nat;
  a_pending : nat;
  a_rejected : nat;
  a_levelStats : list LevelStat;
  a_avgApprovalTimeMs : Q;
  a_avgApprovalTime : string;
  a_completionRate : Z
}.

(** [Math.round]: nearest integer, ties upwards. Numbers are modelled by
    their exact rational value; on doubles a product that is exactly a
    half may come out one rounding error below it, so the properties
    below are stated without the direction of ties. *)
Definition Math_round (x : Q) : Z := Qfloor (x + (1 # 2))%Q.

(** [sub.approvalHistory.some(h => h.level === level && h.status === "APPROVED")] *)
Definition approvedAt_level (lvl : Z) (sub : Submission) : bool :=
  existsb (fun h => (h_level h =? lvl) && bool_decide (h_status h = "APPROVED"))
          (approvalHistory sub).

(** The [for (let level = 1; level <= totalLevels; level++)] loop. *)
Definition levelStatsOf (subs : list Submission) (totalLevels : nat)
    : list LevelStat :=
  map (fun i =>
         let lvl := Z.of_nat (S i) in
         mkLevelStat lvl
           (length (List.filter (approvedAt_level lvl) subs))
           (length subs))
      (seq 0 totalLevels).

(** [s.status === "APPROVED" && s.approvedAt && s.submittedAt] *)
Definition timedApproval (s : Submission) : bool :=
  bool_decide (status s = "APPROVED")
  && bool_decide (is_Some (approvedAt s))
  && bool_decide (is_Some (submittedAt s)).

(** [new Date(sub.approvedAt) - new Date(sub.submittedAt)] *)
Definition approvalDuration (s : Submission) : Z :=
  match approvedAt s, submittedAt s with
  | Some a, Some b => a - b
  | _, _ => 0
  end.

Definition formatTime (ms : Q) : string :=
  if Qeq_bool ms 0 then "N/A"
  else
    let hours := Qfloor (ms / (3600000 # 1))%Q in
    if hours <? 24 then pretty hours ++ "h"
    else
      let days := hours / 24 in
      let remainingHours := Z.rem hours 24 in
      if 0 <? remainingHours
      then pretty days ++ "d " ++ pretty remainingHours ++ "h"
      else pretty days ++ "d".

(** The aggregation over the submissions the query returned and the
    flow of the template. *)
Definition analyticsOf (subs : list Submission) (wf : Flow) : Analytics :=
  let total := length subs in
  let approved :=
    length (List.filter (fun s => bool_decide (status s = "APPROVED")) subs) in
  let pending :=
    length (List.filter
              (fun s => bool_decide (status s ∈ ["PENDING_APPROVAL"; "IN_PROGRESS"]))
              subs) in
  let rejected :=
    length (List.filter (fun s => bool_decide (status s = "REJECTED")) subs) in
  let totalLevels := length wf in
  let approvedSubmissions := List.filter timedApproval subs in
  let totalTime :=
    fold_left (fun acc sub => acc + approvalDuration sub)
              approvedSubmissions 0 in
  let avgApprovalTimeMs :=
    if (0 <? length approvedSubmissions)%nat
    then ((totalTime # 1) / (Z.of_nat (length approvedSubmissions) # 1))%Q
    else 0%Q in
  let completionRate :=
    if (0 <? total)%nat
    then Math_round ((Z.of_nat approved # 1) / (Z.of_nat total # 1) * (100 # 1))%Q
    else 0 in
  mkAnalytics total approved pending rejected
    (levelStatsOf subs totalLevels)
    avgApprovalTimeMs (formatTime avgApprovalTimeMs) completionRate.

(** [FormSubmission.find(filter)]: the role narrows the query. *)
Definition analyticsFilter (user : AuthUser) (tid : ObjectId)
    (s : Submission) : bool :=
  bool_decide (templateId s = tid)
  && (if bool_decide (role user = "PLANT_ADMIN")
      then bool_decide (plantId s = au_plantId user)
      else if bool_decide (role user = "COMPANY_ADMIN")
      then bool_decide (companyId s = au_companyId user)
      else true).

(** The template read with [.select("workflow templateName")] from the
    templates, else with [.select("approvalFlow formName")] from the forms. *)
Definition analyticsFlow (st : Store) (tid : ObjectId) : Flow :=
  match formTemplates st !! tid with
  | Some t => match workflow t with Some w => w | None => [] end
  | None =>
      match forms st !! tid with
      | Some f => match approvalFlow f with Some a => a | None => [] end
      | None => []
      end
  end.

Definition getTemplateAnalytics (st : Store) (user : AuthUser)
    (tid : ObjectId) : Analytics :=
  let subs :=
    List.filter (analyticsFilter user tid)
                (map snd (map_to_list (submissions st))) in
  analyticsOf subs (analyticsFlow st tid).

End SubmissionCtl.

(** ** form.controller.js: how a flow is stored *)

Module FormCtl.

(** [(approvalLevels || approvalFlow || []).map((level, index) =>
      ({ level: index + 1, approverId: level.approverId, ... }))],
    the renumbering done by both [createForm] and [updateForm]. *)
Definition finalApprovalFlow (levels : list (option ObjectId)) : Flow :=
  imap (fun index a => mkFlowEntry (Z.of_nat index + 1) a) levels.

End FormCtl.

(** The data-model invariant of a flow: its levels are 1, 2, ..., N in
    this order. *)
Definition contiguous (flow : Flow) : Prop :=
  map level flow = map (fun i => Z.of_nat i + 1) (seq 0 (length flow)).

(** ** Lifetimes: sequences of [processApproval] calls *)

Module Lifetime.

Record Call := mkCall {
  c_clock : nat -> Time;
  c_user : ObjectId;
  c_body : Approval.Body
}.

Definition perform (st : Store) (c : Call) : Response * Store :=
  Approval.processApproval (c_clock c) st (c_user c) (c_body c).

(** One record per call: the store before, the call, the response and
    the store after. *)
Fixpoint trace (st : Store) (cs : list Call)
    : list (Store * Call * Response * Store) :=
  match cs with
  | [] => []
  | c :: r =>
      let out := perform st c in
      (st, c, out.1, out.2) :: trace out.2 r
  end.

Definition final (st : Store) (cs : list Call) : Store :=
  fold_left (fun s c => (perform s c).2) cs st.

(** The call was an accepted action on submission [id]. *)
Definition actioned (id : ObjectId) (step : Store * Call * Response * Store)
    : bool :=
  match step with
  | (_, c, Ok200 _ _, _) => bool_decide (Approval.submissionId (c_body c) = id)
  | _ => false
  end.

(** What one step of a lifetime does to submission [id]: the level does
    not decrease; an accepted action on [id] appends one entry, whose
    level is the level before the action, to the history it found; any
    other call leaves the submission as it was. *)
Definition orderly (id : ObjectId) (step : Store * Call * Response * Store)
    : Prop :=
  exists subA subB,
    submissions step.1.1.1 !! id = Some subA
    /\ submissions step.2 !! id = Some subB
    /\ currentLevel subA <= currentLevel subB
    /\ if actioned id step
       then exists e, approvalHistory subB = (approvalHistory subA ++ [e])%list
                      /\ h_level e = currentLevel subA
       else subB = subA.

(** The part of [orderly] that concerns the history alone. *)
Definition appending (id : ObjectId) (step : Store * Call * Response * Store)
    : Prop :=
  exists subA subB,
    submissions step.1.1.1 !! id = Some subA
    /\ submissions step.2 !! id = Some subB
    /\ if actioned id step
       then exists e, approvalHistory subB = (approvalHistory subA ++ [e])%list
                      /\ h_level e = currentLevel subA
       else subB = subA.

End Lifetime.

(** Every stored submission satisfies the enumerations of the schema. *)
Definition storeValid (st : Store) : Prop :=
  map_Forall (fun _ sub => validate sub = true) (submissions st).

(** ** approval.controller.js: the approver's work list and dashboard *)

Module Assigned.

(** [status: { $in: ["PENDING_APPROVAL", "IN_PROGRESS", "in_progress",
    "SUBMITTED"] }] *)
Definition inProgress : list string :=
  ["PENDING_APPROVAL"; "IN_PROGRESS"; "in_progress"; "SUBMITTED"].

(** [Form.find({ "approvalFlow.approverId": userId })] *)
Definition hasApprover (uid : ObjectId) (f : Template) : bool :=
  existsb (fun e => bool_decide (approverId e = Some uid))
          (match approvalFlow f with Some fl => fl | None => [] end).

(** [Form.find({ plantId, $or: [{ approvalFlow: { $exists: false } },
    { approvalFlow: { $size: 0 } }] })] *)
Definition withoutFlow (plant : option ObjectId) (f : Template) : bool :=
  bool_decide (t_plantId f = plant)
  && match approvalFlow f with
     | None => true
     | Some fl => (length fl =? 0)%nat
     end.

(** The submissions [getAssignedSubmissions] selects for a user: those of
    the forms found by the two queries above that are in progress. *)
Definition selected (st : Store) (user : SubmissionCtl.AuthUser)
    (sub : Submission) : bool :=
  match forms st !! templateId sub with
  | Some f => hasApprover (SubmissionCtl.userId user) f
              || withoutFlow (SubmissionCtl.au_plantId user) f
  | None => false
  end
  && bool_decide (status sub ∈ inProgress).

(** What the work list adds to a submission. *)
Record Turn := mkTurn {
  isMyTurn : bool;
  userLevel : option Z;
  pendingApproverName : option string
}.

(** [flow.find(f => f.approverId?._id?.toString() === userId.toString()
    || f.approverId?.toString() === userId.toString())] on the populated
    flow. *)
Definition userLevelEntry (st : Store) (uid : ObjectId) (flow : Flow)
    : option FlowEntry :=
  List.find (fun f => bool_decide (Approval.approverIdString st f = Some uid))
            flow.

(** [currentLevelApprover?.approverId?.name || "Previous Approver"] *)
Definition approverName (st : Store) (e : option FlowEntry) : string :=
  match e with
  | Some f =>
      match approverId f with
      | Some a =>
          match users st !! a with
          | Some u => if bool_decide (u_name u = "") then "Previous Approver"
                      else u_name u
          | None => "Previous Approver"
          end
      | None => "Previous Approver"
      end
  | None => "Previous Approver"
  end.

(** The callback of [submissions.map] in [getAssignedSubmissions]. *)
Definition enhance (st : Store) (uid : ObjectId) (sub : Submission) : Turn :=
  let flow := Approval.flowOf (Approval.populateTemplate st sub) in
  if (length flow =? 0)%nat then mkTurn true (Some 1) None
  else
    let lvl := option_map level (userLevelEntry st uid flow) in
    let myTurn := bool_decide (Some (currentLevel sub) = lvl) in
    mkTurn myTurn lvl
      (match lvl with
       | Some l =>
           if negb myTurn && negb (l =? 0) && (currentLevel sub <? l)
           then Some (approverName st
                        (Approval.findLevel flow (currentLevel sub)))
           else None
       | None => None
       end).

(** [flow.find(f => f.approverId.toString() === userId.toString())?.level]
    of [getEmployeeStats], on the flow as stored: the outer [None] is the
    TypeError thrown at an entry without approver. *)
Fixpoint rawUserLevel (uid : ObjectId) (flow : Flow) : option (option Z) :=
  match flow with
  | [] => Some None
  | f :: r =>
      match approverId f with
      | None => None
      | Some a =>
          if bool_decide (a = uid) then Some (Some (level f))
          else rawUserLevel uid r
      end
  end.

(** The callback of [allInProgSubmissions.filter]. *)
Definition pendingFor (st : Store) (uid : ObjectId) (sub : Submission)
    : option bool :=
  match rawUserLevel uid (Approval.flowOf (Approval.populateTemplate st sub)) with
  | Some lvl => Some (bool_decide (Some (currentLevel sub) = lvl))
  | None => None
  end.

(** [{ "approvalHistory.approverId": userId }] *)
Definition actionedBy (uid : ObjectId) (sub : Submission) : bool :=
  existsb (fun h => bool_decide (h_approverId h = uid)) (approvalHistory sub).

Fixpoint countPending (flags : list (option bool)) : option nat :=
  match flags with
  | [] => Some 0%nat
  | None :: _ => None
  | Some b :: r =>
      match countPending r with
      | Some n => Some (if b then S n else n)
      | None => None
      end
  end.

(** [getEmployeeStats]: [None] is the 500 of the [catch]; otherwise
    [(pendingCount, actionedCount)]. *)
Definition getEmployeeStats (st : Store) (uid : ObjectId) : option (nat * nat) :=
  let allInProgSubmissions :=
    List.filter
      (fun sub =>
         match forms st !! templateId sub with
         | Some f => hasApprover uid f
         | None => false
         end && bool_decide (status sub ∈ inProgress))
      (map snd (map_to_list (submissions st))) in
  match countPending (map (pendingFor st uid) allInProgSubmissions) with
  | Some pendingCount =>
      Some (pendingCount,
            length (List.filter (actionedBy uid)
                      (map snd (map_to_list (submissions st)))))
  | None => None
  end.

End Assigned.

(** ** submission.controller.js: getSubmissions *)

Module Listing.

(** [req.query]; an absent parameter and an empty one are both falsy. The
    dates are the values of [new Date(...)]. *)
Record Query := mkQuery {
  q_plantId : option string;
  q_companyId : option string;
  q_templateId : option string;
  q_status : option string;
  q_submittedBy : option string;
  q_startDate : option Time;
  q_endDate : option Time
}.

(** The filter document: [None] leaves a field unconstrained; for the
    references, [Some v] asks for the field to be [v], where [v] is
    absent when [req.user] does not carry it. *)
Record Filter := mkFilter {
  f_plantId : option (option ObjectId);
  f_companyId : option (option ObjectId);
  f_submittedBy : option (option ObjectId);
  f_templateId : option ObjectId;
  f_status : option string;
  f_gte : option Time;
  f_lte : option Time
}.

Definition given (q : option string) : option string :=
  match q with
  | Some v => if bool_decide (v = "") then None else Some v
  | None => None
  end.

(** The construction of [filter] in [getSubmissions]. *)
Definition buildFilter (user : SubmissionCtl.AuthUser) (q : Query) : Filter :=
  let r := SubmissionCtl.role user in
  let byRole :=
    if bool_decide (r = "PLANT_ADMIN")
    then mkFilter (Some (SubmissionCtl.au_plantId user)) None None
                  None None None None
    else if bool_decide (r = "COMPANY_ADMIN")
    then mkFilter None (Some (SubmissionCtl.au_companyId user)) None
                  None None None None
    else if bool_decide (r = "SUPER_ADMIN")
    then mkFilter (option_map Some (given (q_plantId q)))
                  (option_map Some (given (q_companyId q))) None
                  None None None None
    else if bool_decide (r = "EMPLOYEE")
    then mkFilter None None (Some (Some (SubmissionCtl.userId user)))
                  None None None None
    else mkFilter None None None None None None None in
  mkFilter (f_plantId byRole) (f_companyId byRole)
    (match given (q_submittedBy q) with
     | Some v => Some (Some v)
     | None => f_submittedBy byRole
     end)
    (given (q_templateId q)) (given (q_status q))
    (q_startDate q) (q_endDate q).

Definition meets {A} `{EqDecision A} (c : option A) (v : A) : bool :=
  match c with
  | Some w => bool_decide (v = w)
  | None => true
  end.

(** A submission satisfies the filter document. *)
Definition matches (f : Filter) (s : Submission) : bool :=
  meets (f_plantId f) (plantId s)
  && meets (f_companyId f) (companyId s)
  && meets (f_submittedBy f) (submittedBy s)
  && meets (f_templateId f) (templateId s)
  && meets (f_status f) (status s)
  && match f_gte f, submittedAt s with
     | Some t, Some at_ => t <=? at_
     | Some _, None => false
     | None, _ => true
     end
  && match f_lte f, submittedAt s with
     | Some t, Some at_ => at_ <=? t
     | Some _, None => false
     | None, _ => true
     end.

(** The part of the enrichment that reads the history:
    [lastApprovedBy: lastApproval?.approverId?.name || null] and
    [lastActionAt: lastApproval?.actionedAt || null], after
    [.populate("approvalHistory.approverId", "name email")]. *)
Definition lastApproval (sub : Submission) : option HistoryEntry :=
  last (approvalHistory sub).

Definition lastApprovedBy (st : Store) (sub : Submission) : option string :=
  match lastApproval sub with
  | Some h =>
      match users st !! h_approverId h with
      | Some u => if bool_decide (u_name u = "") then None else Some (u_name u)
      | None => None
      end
  | None => None
  end.

Definition lastActionAt (sub : Submission) : option Time :=
  option_map h_actionedAt (lastApproval sub).

End Listing.

(** ** FormSubmission.model.js: the numerical id given before the first save *)

Module Hook.

(** [findOne().sort({ numericalId: -1 })], read on the [numericalId]s of
    the stored documents: the greatest one, documents without the field
    sorting last. *)
Fixpoint topNumericalId (ids : list (option Z)) : option Z :=
  match ids with
  | [] => None
  | o :: r =>
      match o, topNumericalId r with
      | Some a, Some b => Some (Z.max a b)
      | Some a, None => Some a
      | None, t => t
      end
  end.

(** [maxSubmission && maxSubmission.numericalId
      ? maxSubmission.numericalId + 1 : 1] *)
Definition nextNumericalId (ids : list (option Z)) : Z :=
  match topNumericalId ids with
  | Some n => if n =? 0 then 1 else Js.increment n
  | None => 1
  end.

(** The [pre('save')] hook: [if (!this.numericalId && this.isNew)]. (The
    [Date.now()] fallback of its [catch], taken when the query itself
    fails, is outside the model.) *)
Definition preSave (own : option Z) (isNew : bool) (ids : list (option Z))
    : option Z :=
  let missing := match own with Some n => n =? 0 | None => true end in
  if missing && isNew then Some (nextNumericalId ids) else own.

End Hook.

(** ** A concrete installation used to exercise the handlers *)

Module Scenario.

Definition userA : ObjectId := "65a1f0000000000000000a01".
Definition userB : ObjectId := "65a1f0000000000000000b02".
Definition userC : ObjectId := "65a1f0000000000000000c03".
Definition formId : ObjectId := "65a1f00000000000000f0001".
Definition openFormId : ObjectId := "65a1f00000000000000f0002".
Definition subId : ObjectId := "65a1f000000000000005b001".

Definition clock (n : nat) : Time := 1700000000000 + Z.of_nat n.

(** The two-level flow of the specification's scenario: A, then B. *)
Definition flowAB : Flow :=
  FormCtl.finalApprovalFlow [Some userA; Some userB].

Definition people : gmap string User :=
  {[ userA := mkUser "A" "a@plant.test";
     userB := mkUser "B" "b@plant.test";
     userC := mkUser "C" "c@plant.test" ]}.

Definition catalogue : gmap string Template :=
  {[ formId := mkTemplate None (Some flowAB) None None;
     openFormId := mkTemplate None (Some []) None None ]}.

(** What C wrote into the form. *)
Definition payload : Data := [("qty", "10")].

Definition blank (tid : ObjectId) (st : string) (lvl : Z)
    (h : list HistoryEntry) : Submission :=
  mkSubmission tid FormModel None None (Some userC) payload st lvl h
               (Some 1699999000000) None None None None.

(** Waiting for A at level 1. *)
Definition pending1 : Submission := blank formId "PENDING_APPROVAL" 1 [].

Definition approvedByA : HistoryEntry :=
  mkHistoryEntry 1 userA "APPROVED" None 1699999100000.

Definition rejectedByB : HistoryEntry :=
  mkHistoryEntry 2 userB "REJECTED" (Some "incomplete") 1699999200000.

(** Waiting for B at level 2. *)
Definition pending2 : Submission :=
  blank formId "PENDING_APPROVAL" 2 [approvedByA].

(** Rejected by B at level 2. *)
Definition rejected2 : Submission :=
  mkSubmission formId FormModel None None (Some userC) payload "REJECTED" 2
               [approvedByA; rejectedByB]
               (Some 1699999000000) None (Some 1699999200001) None (Some userB).

(** A submission of the form without a flow, approved by C: APPROVED at
    level [0 + 1]. *)
Definition openApproved : Submission :=
  mkSubmission openFormId FormModel None None (Some userC) payload
               "APPROVED" 1
               [mkHistoryEntry 0 userC "APPROVED" None 1699999100000]
               (Some 1699999000000) (Some 1699999100001) None (Some userC) None.

Definition store (sub : Submission) : Store :=
  mkStore {[ subId := sub ]} catalogue ∅ people.

Definition act (st : string) : Approval.Body :=
  Approval.mkBody subId (Some st) (Some "ok") None.

Definition anyone : SubmissionCtl.AuthUser :=
  SubmissionCtl.mkAuthUser userC "EMPLOYEE" None None.

(** The installation before any submission, the request that C sends to
    fill the form with the flow A, B, and the submission it creates. *)
Definition fresh : Store := mkStore ∅ catalogue ∅ people.

Definition fill : SubmissionCtl.CreateBody :=
  SubmissionCtl.mkCreateBody formId None None
                             (SubmissionCtl.GoodData payload) None None.

Definition created : Submission :=
  mkSubmission formId FormModel None None (Some userC) payload
               "PENDING_APPROVAL" 1
               [] (Some (clock 0%nat)) None None None None.


Definition createdEmpty : Submission :=
  mkSubmission formId FormModel None None (Some userC) [] "PENDING_APPROVAL" 1
               [] (Some (clock 0%nat)) None None None None.

(** Three submissions of one form, one of them approved after an hour
    and a half. *)
Definition sample : list Submission :=
  [ mkSubmission formId FormModel None None (Some userC) payload "APPROVED" 3
      [approvedByA; mkHistoryEntry 2 userB "APPROVED" None 1699999300000]
      (Some 1699999000000) (Some 1700004400000) None (Some userB) None;
    pending2;
    pending1 ].

(** The three of them as stored, and a lifetime of the first scenario
    submission: B out of turn, A approves, B rejects, B approves. *)
Definition archive : Store :=
  mkStore (list_to_map (zip ["65a1f000000000000005b001";
                             "65a1f000000000000005b002";
                             "65a1f000000000000005b003"] sample))
          catalogue ∅ people.

Definition calls : list Lifetime.Call :=
  [ Lifetime.mkCall clock userB (act "approved");
    Lifetime.mkCall clock userA (act "approved");
    Lifetime.mkCall clock userB (act "rejected");
    Lifetime.mkCall clock userB (act "APPROVED") ].

(** A second submission, stored beside the first. *)
Definition otherId : ObjectId := "65a1f000000000000005b002".

Definition twoSubmissions : Store :=
  mkStore {[ subId := pending1; otherId := pending2 ]} catalogue ∅ people.

Definition edit : Approval.Body :=
  Approval.mkBody subId (Some "approved") None (Some [("qty", "12")]).

(** The first submission after the approval of A. *)
Definition approvedOnce : Submission :=
  mkSubmission formId FormModel None None (Some userC) payload
               "PENDING_APPROVAL" 2
               [mkHistoryEntry 1 userA "APPROVED" (Some "ok") (clock 0%nat)]
               (Some 1699999000000) None None None None.

(** The approvals of A and of B, in this order. *)
Definition approvalsAB : list Lifetime.Call :=
  [ Lifetime.mkCall clock userA (act "approved");
    Lifetime.mkCall clock userB (act "Approved") ].

(** A form on which A holds the levels 1 and 3, and a form whose level 1
    was stored without approver. *)
Definition formABA : ObjectId := "65a1f00000000000000f0003".
Definition formGap : ObjectId := "65a1f00000000000000f0004".

Definition flowABA : Flow :=
  FormCtl.finalApprovalFlow [Some userA; Some userB; Some userA].

Definition flowGap : Flow :=
  FormCtl.finalApprovalFlow [None; Some userA].

Definition widerCatalogue : gmap string Template :=
  <[ formABA := mkTemplate None (Some flowABA) None None ]>
    (<[ formGap := mkTemplate None (Some flowGap) None None ]> catalogue).

Definition widerStore (sub : Submission) : Store :=
  mkStore {[ subId := sub ]} widerCatalogue ∅ people.

(** A plant administrator and a submission of their plant. *)
Definition plantP : ObjectId := "65a1f0000000000000009001".

Definition plantAdmin : SubmissionCtl.AuthUser :=
  SubmissionCtl.mkAuthUser userA "PLANT_ADMIN" (Some plantP) None.

Definition ofPlantP : Submission :=
  mkSubmission formId FormModel (Some plantP) None (Some userC) payload
               "PENDING_APPROVAL" 1 [] (Some 1699999000000)
               None None None None.

Definition noQuery : Listing.Query :=
  Listing.mkQuery None None None None None None None.

(** The installation after [updateForm] has stored the form of the
    scenario with an empty list of levels. *)
Definition emptiedCatalogue : gmap string Template :=
  <[ formId := mkTemplate None (Some (FormCtl.finalApprovalFlow [])) None None ]>
    catalogue.

Definition emptied (sub : Submission) : Store :=
  mkStore {[ subId := sub ]} emptiedCatalogue ∅ people.

(** A form whose stored levels are 1, 4 and 5, a submission of it and
    the approvals of A, B and C, in this order. *)
Definition formSparse : ObjectId := "65a1f00000000000000f0005".

Definition flowSparse : Flow :=
  [ mkFlowEntry 1 (Some userA); mkFlowEntry 4 (Some userB);
    mkFlowEntry 5 (Some userC) ].

Definition sparseStore : Store :=
  mkStore {[ subId := blank formSparse "PENDING_APPROVAL" 1 [] ]}
          (<[ formSparse := mkTemplate None (Some flowSparse) None None ]>
             catalogue)
          ∅ people.

Definition approvalsABC : list Lifetime.Call :=
  [ Lifetime.mkCall clock userA (act "approved");
    Lifetime.mkCall clock userB (act "approved");
    Lifetime.mkCall clock userC (act "approved") ].




(** The levels of the scenario submission after each call of a lifetime. *)
Definition levelsAlong (st : Store) (cs : list Lifetime.Call)
    : list (option Z) :=
  map (fun step => currentLevel <$> submissions step.2 !! subId)
      (Lifetime.trace st cs).

End Scenario.

(** * Properties *)

Local Open Scope list_scope.

(** ** Case conversion *)

Section CaseConversion.

Lemma lower_upper_ascii (c : ascii) :
  Js.lowerAscii (Js.upperAscii c) = Js.lowerAscii c.
Proof. destruct c as [[] [] [] [] [] [] [] []]; reflexivity. Qed.

Lemma upper_lower_ascii (c : ascii) :
  Js.upperAscii (Js.lowerAscii c) = Js.upperAscii c.
Proof. destruct c as [[] [] [] [] [] [] [] []]; reflexivity. Qed.

Lemma toLowerCase_toUpperCase (s : string) :
  Js.toLowerCase (Js.toUpperCase s) = Js.toLowerCase s.
Proof.
  induction s as [|c r IH]; simpl; [reflexivity|].
  unfold Js.toLowerCase, Js.toUpperCase in *; simpl.
  now rewrite lower_upper_ascii, IH.
Qed.

Lemma toUpperCase_toLowerCase (s : string) :
  Js.toUpperCase (Js.toLowerCase s) = Js.toUpperCase s.
Proof.
  induction s as [|c r IH]; simpl; [reflexivity|].
  unfold Js.toLowerCase, Js.toUpperCase in *; simpl.
  now rewrite upper_lower_ascii, IH.
Qed.

(** The test of the controller, [status.toLowerCase() === "rejected"],
    holds exactly when the recorded status is ["REJECTED"]. *)
Lemma rejected_iff (s : string) :
  Js.toLowerCase s = "rejected" <-> Js.toUpperCase s = "REJECTED".
Proof.
  split; intros H.
  - rewrite <- toUpperCase_toLowerCase, H. reflexivity.
  - rewrite <- toLowerCase_toUpperCase, H. reflexivity.
Qed.

Lemma not_rejected_of_upper (s u : string) :
  Js.toUpperCase s = u -> u <> "REJECTED" -> Js.toLowerCase s <> "rejected".
Proof. intros Hu Hne Hl. apply rejected_iff in Hl. congruence. Qed.

Lemma isAscii_upperAscii (c : ascii) :
  (N_of_ascii (Js.upperAscii c) <? 128)%N = (N_of_ascii c <? 128)%N.
Proof. destruct c as [[] [] [] [] [] [] [] []]; reflexivity. Qed.

Lemma isAscii_toUpperCase (s : string) :
  Js.isAscii (Js.toUpperCase s) = Js.isAscii s.
Proof.
  induction s as [|c r IH]; simpl; [reflexivity|].
  unfold Js.toUpperCase in *; simpl. now rewrite isAscii_upperAscii, IH.
Qed.

(** A string that the model sends to a value of the history enumeration
    is an ASCII string: on it the model's conversion is JavaScript's. *)
Lemma enum_status_isAscii (s : string) :
  inEnum historyStatusEnum (Js.toUpperCase s) = true -> Js.isAscii s = true.
Proof.
  intros H. rewrite <- isAscii_toUpperCase.
  apply bool_decide_eq_true_1 in H.
  repeat (apply elem_of_cons in H as [-> | H]; [reflexivity|]).
  now apply elem_of_nil in H.
Qed.

End CaseConversion.

(** ** Numbers *)

Section Numbers.

Lemma increment_safe (x : Z) :
  Js.isSafeInteger x = true -> Js.increment x = x + 1.
Proof.
  unfold Js.isSafeInteger, Js.increment. intros H.
  apply andb_true_iff in H as [Hlo Hhi].
  apply Z.ltb_lt in Hlo. rewrite Hhi, andb_true_r.
  now replace (- 2 ^ 53 <=? x) with true by (symmetry; apply Z.leb_le; lia).
Qed.

Lemma increment_le (x : Z) : x <= Js.increment x.
Proof.
  unfold Js.increment.
  destruct ((- 2 ^ 53 <=? x) && (x <? 2 ^ 53)); [lia|].
  destruct (Z.abs x <? 2 ^ 54); [|lia].
  destruct (Z.even (x / 2)); lia.
Qed.

End Numbers.

(** ** Flows *)

Section Flows.

Import Approval.

Lemma findLevel_Some (flow : Flow) (lvl : Z) (e : FlowEntry) :
  findLevel flow lvl = Some e -> e ∈ flow /\ level e = lvl.
Proof.
  unfold findLevel. intros H. apply find_some in H as [Hin Heq].
  split; [now apply list_elem_of_In | lia].
Qed.

Lemma findLevel_None (flow : Flow) (lvl : Z) :
  findLevel flow lvl = None <-> ~ (exists e, e ∈ flow /\ level e = lvl).
Proof.
  unfold findLevel. split.
  - intros H [e [Hin Hl]].
    apply list_elem_of_In in Hin.
    pose proof (find_none _ _ H e Hin) as Hf. simpl in Hf. lia.
  - intros H. destruct (find _ flow) as [e|] eqn:Hf; [|reflexivity].
    exfalso. apply H. exists e. apply find_some in Hf as [Hin Heq].
    split; [now apply list_elem_of_In | lia].
Qed.

Lemma findLevel_is_Some (flow : Flow) (lvl : Z) :
  is_Some (findLevel flow lvl) <-> exists e, e ∈ flow /\ level e = lvl.
Proof.
  split.
  - intros [e He]. exists e. now apply findLevel_Some.
  - intros Hex. destruct (findLevel flow lvl) eqn:Hf; [eauto|].
    now apply findLevel_None in Hf.
Qed.

Lemma seq_levels_bound (n start : nat) (l : Z) :
  l ∈ map (fun i => Z.of_nat i + 1) (seq start n) ->
  Z.of_nat start + 1 <= l <= Z.of_nat start + Z.of_nat n.
Proof.
  intros Hin. apply list_elem_of_In, in_map_iff in Hin as [i [<- Hi]].
  apply in_seq in Hi. lia.
Qed.

Lemma contiguous_level_bounds (flow : Flow) (e : FlowEntry) :
  contiguous flow -> e ∈ flow -> 1 <= level e <= Z.of_nat (length flow).
Proof.
  intros Hc Hin.
  assert (Hl : level e ∈ map level flow) by (apply list_elem_of_fmap; eauto).
  rewrite Hc in Hl. apply seq_levels_bound in Hl. lia.
Qed.

Lemma imap_levels {A} (f : A -> option ObjectId) (l : list A) (k : nat) :
  map level (imap (fun index a => mkFlowEntry (Z.of_nat (k + index) + 1) (f a)) l)
  = map (fun i => Z.of_nat i + 1) (seq k (length l)).
Proof.
  revert k. induction l as [|a l IH]; intros k; simpl; [reflexivity|].
  f_equal; [f_equal; lia|].
  rewrite <- (IH (S k)). f_equal. apply imap_ext. intros i x _. simpl.
  do 2 f_equal. lia.
Qed.

(** Every flow written by [createForm] or [updateForm] is contiguous. *)
Lemma finalApprovalFlow_contiguous (levels : list (option ObjectId)) :
  contiguous (FormCtl.finalApprovalFlow levels).
Proof.
  unfold contiguous, FormCtl.finalApprovalFlow.
  rewrite length_imap. apply (imap_levels id levels 0%nat).
Qed.

Lemma contiguous_past_end (flow : Flow) (lvl : Z) :
  contiguous flow -> Z.of_nat (length flow) < lvl -> findLevel flow lvl = None.
Proof.
  intros Hc Hlt. apply findLevel_None. intros [e [Hin Hl]].
  pose proof (contiguous_level_bounds flow e Hc Hin). lia.
Qed.

End Flows.

(** ** The gate and the transition of [processApproval] *)

Section ProcessApproval.

Import Approval.

Variable clock : nat -> Time.

Lemma checkApprover_authorized st flow sub uid :
  authorized st flow sub uid -> checkApprover st flow sub uid = None.
Proof.
  unfold checkApprover. intros [-> | [e [Hf Ha]]]; [reflexivity|].
  destruct flow as [|x r]; [discriminate|]. simpl length. simpl Nat.eqb.
  rewrite Hf. now rewrite bool_decide_eq_true_2.
Qed.

Lemma checkApprover_denied st flow sub uid :
  flow <> [] ->
  (forall e, findLevel flow (currentLevel sub) = Some e ->
             approverIdString st e <> Some uid) ->
  exists msg, checkApprover st flow sub uid = Some msg.
Proof.
  unfold checkApprover. intros Hne Hno.
  destruct flow as [|x r]; [congruence|]. simpl length. simpl Nat.eqb.
  destruct (findLevel (x :: r) (currentLevel sub)) as [e|] eqn:Hf; [|eauto].
  rewrite bool_decide_eq_false_2; eauto.
Qed.

Lemma checkApprover_None_inv st flow sub uid :
  checkApprover st flow sub uid = None -> authorized st flow sub uid.
Proof.
  unfold checkApprover, authorized. destruct flow as [|x r]; [now left|].
  simpl length. simpl Nat.eqb.
  destruct (findLevel (x :: r) (currentLevel sub)) as [e|] eqn:Hf; [|discriminate].
  case_bool_decide; [|discriminate]. intros _. right. eauto.
Qed.

(** Case analysis along the branches of [applyAction]. *)
Ltac applyAction_branches flow :=
  unfold applyAction;
  match goal with
  | |- context [match ?d with Some _ => _ | None => _ end] =>
      is_var d; destruct d
  end;
  case_bool_decide; simpl; try (destruct (findLevel flow _)).

Lemma historyValid_app h e :
  historyValid (h ++ [e])
  = historyValid h && inEnum historyStatusEnum (h_status e).
Proof.
  unfold historyValid. rewrite forallb_app. simpl. now rewrite andb_true_r.
Qed.

(** The history after the in-memory transition. *)
Lemma applyAction_history flow uid s comments newData sub :
  approvalHistory (applyAction clock flow uid s comments newData sub)
  = approvalHistory sub
    ++ [mkHistoryEntry (currentLevel sub) uid (Js.toUpperCase s) comments
                       (clock 0%nat)].
Proof. applyAction_branches flow; reflexivity. Qed.

(** The transition always writes a status of the schema's enumeration. *)
Lemma applyAction_status_enum flow uid s comments newData sub :
  inEnum statusEnum
    (status (applyAction clock flow uid s comments newData sub)) = true.
Proof. applyAction_branches flow; reflexivity. Qed.

Lemma carriesPayload_present newData sub :
  carriesPayload newData sub -> payloadPresent newData sub = true.
Proof.
  unfold carriesPayload, payloadPresent, hasPayload.
  destruct newData; [reflexivity|]. intros H.
  now rewrite bool_decide_eq_false_2.
Qed.

Lemma applyAction_validate flow uid s comments newData sub :
  validate (applyAction clock flow uid s comments newData sub)
  = historyValid (approvalHistory sub)
    && inEnum historyStatusEnum (Js.toUpperCase s).
Proof.
  unfold validate.
  rewrite applyAction_status_enum, applyAction_history, historyValid_app.
  reflexivity.
Qed.

(** What an accepted call returns and stores. *)
Lemma processApproval_accepted st uid body sub flow s :
  submissions st !! submissionId body = Some sub ->
  flowOf (populateTemplate st sub) = flow ->
  authorized st flow sub uid ->
  b_status body = Some s ->
  carriesPayload (b_data body) sub ->
  historyValid (approvalHistory sub) = true ->
  inEnum historyStatusEnum (Js.toUpperCase s) = true ->
  let sub' := applyAction clock flow uid s (b_comments body) (b_data body) sub in
  processApproval clock st uid body
  = (Ok200 ("Submission " ++ s ++ " successfully")%string sub',
     mkStore (<[submissionId body := sub']> (submissions st)) (forms st)
             (formTemplates st) (users st)).
Proof.
  intros Hsub Hflow Hauth Hs Hp Hh He sub'.
  unfold processApproval. rewrite Hsub, Hflow.
  rewrite (checkApprover_authorized _ _ _ _ Hauth), Hs.
  unfold save. fold sub'. unfold sub'.
  rewrite (carriesPayload_present _ _ Hp), applyAction_validate, Hh, He.
  reflexivity.
Qed.

(** Without a payload, neither stored nor sent, the [required] validator
    refuses the document and nothing changes. *)
Lemma processApproval_without_payload st uid body sub :
  submissions st !! submissionId body = Some sub ->
  data sub = [] ->
  b_data body = None ->
  (exists msg, processApproval clock st uid body = (Forbidden403 msg, st))
  \/ processApproval clock st uid body
     = (ServerError500 "Failed to process approval", st).
Proof.
  intros Hsub Hd Hb. unfold processApproval. rewrite Hsub.
  destruct (checkApprover _ _ _ _); [left; eauto|]. right.
  destruct (b_status body); [|reflexivity].
  unfold save, payloadPresent, hasPayload. rewrite Hb, Hd. reflexivity.
Qed.

(** A call that the schema refuses at [save()] changes nothing. *)
Lemma processApproval_refused st uid body sub flow s :
  submissions st !! submissionId body = Some sub ->
  flowOf (populateTemplate st sub) = flow ->
  authorized st flow sub uid ->
  b_status body = Some s ->
  inEnum historyStatusEnum (Js.toUpperCase s) = false ->
  processApproval clock st uid body
  = (ServerError500 "Failed to process approval", st).
Proof.
  intros Hsub Hflow Hauth Hs He.
  unfold processApproval. rewrite Hsub, Hflow.
  rewrite (checkApprover_authorized _ _ _ _ Hauth), Hs.
  unfold save. rewrite applyAction_validate, He, !andb_false_r. reflexivity.
Qed.

(** A refused actor gets a 403 and the store is the one that was read. *)
Lemma processApproval_forbidden st uid body sub flow msg :
  submissions st !! submissionId body = Some sub ->
  flowOf (populateTemplate st sub) = flow ->
  checkApprover st flow sub uid = Some msg ->
  processApproval clock st uid body = (Forbidden403 msg, st).
Proof.
  intros Hsub Hflow Hc. unfold processApproval.
  now rewrite Hsub, Hflow, Hc.
Qed.

(** The three branches of the transition. *)

Lemma applyAction_reject flow uid s comments newData sub :
  Js.toLowerCase s = "rejected" ->
  let sub' := applyAction clock flow uid s comments newData sub in
  status sub' = "REJECTED"
  /\ rejectedAt sub' = Some (clock 1%nat)
  /\ rejectedBy sub' = Some uid
  /\ currentLevel sub' = currentLevel sub
  /\ approvedAt sub' = approvedAt sub
  /\ approvedBy sub' = approvedBy sub.
Proof.
  intros Hr. unfold applyAction. rewrite bool_decide_eq_true_2 by exact Hr.
  destruct newData; simpl; repeat split; reflexivity.
Qed.

Lemma applyAction_advance flow uid s comments newData sub e :
  Js.toLowerCase s <> "rejected" ->
  findLevel flow (Js.increment (currentLevel sub)) = Some e ->
  let sub' := applyAction clock flow uid s comments newData sub in
  status sub' = "PENDING_APPROVAL"
  /\ currentLevel sub' = Js.increment (currentLevel sub)
  /\ approvedAt sub' = approvedAt sub
  /\ approvedBy sub' = approvedBy sub
  /\ rejectedAt sub' = rejectedAt sub
  /\ rejectedBy sub' = rejectedBy sub.
Proof.
  intros Hr Hf. unfold applyAction. rewrite bool_decide_eq_false_2 by exact Hr.
  destruct newData; simpl; rewrite Hf; simpl; repeat split; reflexivity.
Qed.

Lemma applyAction_finish flow uid s comments newData sub :
  Js.toLowerCase s <> "rejected" ->
  findLevel flow (Js.increment (currentLevel sub)) = None ->
  let sub' := applyAction clock flow uid s comments newData sub in
  status sub' = "APPROVED"
  /\ approvedAt sub' = Some (clock 1%nat)
  /\ approvedBy sub' = Some uid
  /\ currentLevel sub' = Z.of_nat (length flow) + 1
  /\ rejectedAt sub' = rejectedAt sub
  /\ rejectedBy sub' = rejectedBy sub.
Proof.
  intros Hr Hf. unfold applyAction. rewrite bool_decide_eq_false_2 by exact Hr.
  destruct newData; simpl; rewrite Hf; simpl; repeat split; reflexivity.
Qed.

(** The payload is replaced exactly when the approver sent one. *)
Lemma applyAction_data flow uid s comments newData sub :
  data (applyAction clock flow uid s comments newData sub)
  = match newData with Some d => d | None => data sub end.
Proof. applyAction_branches flow; reflexivity. Qed.

(** A stored payload stays one as long as no call replaces it by an
    empty object. *)
Lemma carriesPayload_kept flow uid s comments newData sub :
  data sub <> [] ->
  newData <> Some [] ->
  carriesPayload newData sub
  /\ data (applyAction clock flow uid s comments newData sub) <> [].
Proof.
  intros Hd Hn. rewrite applyAction_data. unfold carriesPayload.
  destruct newData as [d|]; [|now split].
  assert (d <> []) by congruence. now split.
Qed.

End ProcessApproval.

(** ** The effects of an accepted action *)

Section Effects.

Import Approval.

Variable clock : nat -> Time.



(** C3. On a submission with a non-empty flow, an actor who is not the
    approver of the entry at the current level gets a 403 whatever the
    action, and the store, hence the submission with its history, status,
    level, data, timestamps and identities, is the one that was read:
    nothing is saved. *)
Theorem wrong_actor_is_refused_without_effect
    (st : Store) (uid : ObjectId) (body : Body) (sub : Submission)
    (flow : Flow) :
  submissions st !! submissionId body = Some sub ->
  flowOf (populateTemplate st sub) = flow ->
  flow <> [] ->
  (forall e, findLevel flow (currentLevel sub) = Some e ->
             approverIdString st e <> Some uid) ->
  exists msg,
    processApproval clock st uid body = (Forbidden403 msg, st)
    /\ submissions (processApproval clock st uid body).2 !! submissionId body
       = Some sub.
Proof.
  intros Hsub Hflow Hne Hwrong.
  destruct (checkApprover_denied st flow sub uid Hne Hwrong) as [msg Hmsg].
  exists msg.
  rewrite (processApproval_forbidden clock st uid body sub flow msg
             Hsub Hflow Hmsg).
  split; [reflexivity | exact Hsub].
Qed.

(** C6. On a submission with a non-empty flow that has no entry for the
    submission's current level, every call fails closed with the 403
    "No approver found for this level" and the store is untouched: no
    advance, no history entry, no change of status or level. *)
Theorem missing_level_fails_closed
    (st : Store) (uid : ObjectId) (body : Body) (sub : Submission)
    (flow : Flow) :
  submissions st !! submissionId body = Some sub ->
  flowOf (populateTemplate st sub) = flow ->
  flow <> [] ->
  ~ (exists e, e ∈ flow /\ level e = currentLevel sub) ->
  processApproval clock st uid body
  = (Forbidden403 "No approver found for this level", st).
Proof.
  intros Hsub Hflow Hne Hmiss. apply findLevel_None in Hmiss.
  apply (processApproval_forbidden clock st uid body sub flow); try assumption.
  unfold checkApprover. destruct flow as [|x r]; [congruence|].
  simpl length. simpl Nat.eqb. now rewrite Hmiss.
Qed.

End Effects.

(** ** The effects, on the installation of [Scenario] *)

Section EffectsOnScenario.

Import Approval Scenario.





(** B tries to act while the submission waits for A. *)
Lemma wrong_actor_on_scenario :
  exists msg,
    processApproval clock (store pending1) userB (act "approved")
    = (Forbidden403 msg, store pending1)
    /\ submissions
         (processApproval clock (store pending1) userB (act "approved")).2
       !! subId = Some pending1.
Proof.
  apply (wrong_actor_is_refused_without_effect clock (store pending1) userB
           (act "approved") pending1 flowAB).
  - reflexivity.
  - reflexivity.
  - discriminate.
  - intros e He. vm_compute in He. injection He as <-. vm_compute. discriminate.
Defined.

(** A submission at level 3 of the two-level flow. *)
Lemma missing_level_on_scenario :
  processApproval clock (store (blank formId "PENDING_APPROVAL" 3 [])) userA
                  (act "approved")
  = (Forbidden403 "No approver found for this level",
     store (blank formId "PENDING_APPROVAL" 3 [])).
Proof.
  apply (missing_level_fails_closed clock
           (store (blank formId "PENDING_APPROVAL" 3 [])) userA
           (act "approved") (blank formId "PENDING_APPROVAL" 3 []) flowAB).
  - reflexivity.
  - reflexivity.
  - discriminate.
  - intros [e [Hin Hl]]. vm_compute in Hin.
    apply list_elem_of_In in Hin. simpl in Hin.
    destruct Hin as [<- | [<- | []]]; vm_compute in Hl; discriminate.
Defined.

End EffectsOnScenario.

(** ** Creation *)

Section Creation.

Import SubmissionCtl.

Lemma finalStatusOf_cases (requested : option string) (hasFlow : bool) :
  finalStatusOf requested hasFlow
  = if bool_decide (requested = Some "DRAFT") then "DRAFT"
    else if hasFlow then "PENDING_APPROVAL" else "APPROVED".
Proof.
  unfold finalStatusOf. destruct requested as [s|]; [|reflexivity].
  destruct (bool_decide_reflect (s = "")) as [-> | Hne]; [reflexivity|].
  destruct (bool_decide_reflect (s <> "DRAFT")) as [Hd | Hd].
  - rewrite bool_decide_eq_false_2; [reflexivity | congruence].
  - apply dec_stable in Hd. subst s. reflexivity.
Qed.

(** C5. When the template exists and the payload is present,
    [createSubmission] stores a submission in the initial state of the
    workflow: DRAFT at level 0 without history if a draft was requested;
    otherwise PENDING_APPROVAL at level 1 if the template's flow is not
    empty, and APPROVED at level 0 without history if it is empty. *)
Theorem createSubmission_initial_state
    (clock : nat -> Time) (newId : ObjectId)
    (uploads : list (string * string)) (st : Store) (user : AuthUser)
    (body : CreateBody) (template : Template) (d : Data) :
  c_data body = GoodData d ->
  (formTemplates st !! c_templateId body = Some template
   \/ (formTemplates st !! c_templateId body = None
       /\ forms st !! c_templateId body = Some template)) ->
  exists msg sub st',
    createSubmission clock newId uploads st user body
    = (Created201 msg sub, st')
    /\ submissions st' !! newId = Some sub
    /\ (c_requestedStatus body = Some "DRAFT" ->
        status sub = "DRAFT" /\ currentLevel sub = 0
        /\ approvalHistory sub = [])
    /\ (c_requestedStatus body <> Some "DRAFT" ->
        workflowOf template <> [] ->
        status sub = "PENDING_APPROVAL" /\ currentLevel sub = 1
        /\ approvalHistory sub = [])
    /\ (c_requestedStatus body <> Some "DRAFT" ->
        workflowOf template = [] ->
        status sub = "APPROVED" /\ currentLevel sub = 0
        /\ approvalHistory sub = []).
Proof.
  intros Hd Hfound. unfold createSubmission. rewrite Hd.
  set (model := match formTemplates st !! c_templateId body with
                | Some _ => FormTemplateModel | None => FormModel end).
  assert (Hpick :
    match formTemplates st !! c_templateId body with
    | Some t => Some (t, FormTemplateModel)
    | None => match forms st !! c_templateId body with
              | Some t => Some (t, FormModel) | None => None end
    end = Some (template, model)).
  { unfold model. destruct Hfound as [-> | [-> ->]]; reflexivity. }
  rewrite Hpick. clear Hpick. rewrite finalStatusOf_cases.
  destruct (bool_decide_reflect (c_requestedStatus body = Some "DRAFT"))
    as [Hdraft | Hdraft].
  - eexists _, _, _. split; [reflexivity|]. split; [apply lookup_insert_eq|].
    simpl. repeat split; try reflexivity; intros; congruence.
  - destruct (workflowOf template) as [|x r] eqn:Hwf; simpl.
    + eexists _, _, _. split; [reflexivity|]. split; [apply lookup_insert_eq|].
      simpl. repeat split; try reflexivity; intros; congruence.
    + eexists _, _, _. split; [reflexivity|]. split; [apply lookup_insert_eq|].
      simpl. repeat split; try reflexivity; intros; congruence.
Qed.

(** The specification's scenario: created on the flow A, B. *)
Lemma createSubmission_on_scenario :
  exists msg sub st',
    createSubmission Scenario.clock Scenario.subId []
      (mkStore ∅ Scenario.catalogue ∅ Scenario.people) Scenario.anyone
      (mkCreateBody Scenario.formId None None (GoodData []) None None)
    = (Created201 msg sub, st')
    /\ submissions st' !! Scenario.subId = Some sub
    /\ ((None : option string) = Some "DRAFT" ->
        status sub = "DRAFT" /\ currentLevel sub = 0
        /\ approvalHistory sub = [])
    /\ ((None : option string) <> Some "DRAFT" ->
        Scenario.flowAB <> [] ->
        status sub = "PENDING_APPROVAL" /\ currentLevel sub = 1
        /\ approvalHistory sub = [])
    /\ ((None : option string) <> Some "DRAFT" ->
        Scenario.flowAB = [] ->
        status sub = "APPROVED" /\ currentLevel sub = 0
        /\ approvalHistory sub = []).
Proof.
  apply (createSubmission_initial_state Scenario.clock Scenario.subId []
           (mkStore ∅ Scenario.catalogue ∅ Scenario.people) Scenario.anyone
           (mkCreateBody Scenario.formId None None (GoodData []) None None)
           (mkTemplate None (Some Scenario.flowAB) None None) []).
  - reflexivity.
  - right. split; reflexivity.
Defined.

End Creation.

(** ** Terminal states *)

Section Terminal.

Import Approval.

(** C4, as stated, fails. B, who rejected the submission at level 2,
    approves it afterwards: the call is accepted, a third history entry
    is written and the REJECTED submission becomes APPROVED. And a
    submission that is APPROVED past the end of an empty flow is then
    rejected by A, who is bound to nothing. *)
Lemma terminal_submissions_accept_further_actions :
  (status Scenario.rejected2 = "REJECTED"
   /\ exists msg sub' st',
        processApproval Scenario.clock (Scenario.store Scenario.rejected2)
                        Scenario.userB (Scenario.act "approved")
        = (Ok200 msg sub', st')
        /\ submissions st' !! Scenario.subId = Some sub'
        /\ status sub' = "APPROVED"
        /\ length (approvalHistory sub') = 3%nat)
  /\ (status Scenario.openApproved = "APPROVED"
      /\ flowOf (populateTemplate (Scenario.store Scenario.openApproved)
                                  Scenario.openApproved) = []
      /\ 0 < currentLevel Scenario.openApproved
      /\ exists msg sub' st',
           processApproval Scenario.clock
                           (Scenario.store Scenario.openApproved)
                           Scenario.userA (Scenario.act "rejected")
           = (Ok200 msg sub', st')
           /\ submissions st' !! Scenario.subId = Some sub'
           /\ status sub' = "REJECTED"
           /\ length (approvalHistory sub') = 2%nat).
Proof.
  split.
  - split; [reflexivity|]. eexists _, _, _.
    split; [vm_compute; reflexivity|]. repeat split; reflexivity.
  - split; [reflexivity|]. split; [reflexivity|]. split; [reflexivity|].
    eexists _, _, _.
    split; [vm_compute; reflexivity|]. repeat split; reflexivity.
Qed.

(** C4, amended. For a flow that is not empty and contiguous, a
    submission whose level lies past the last level (the state in which
    the approval of the last level leaves it: APPROVED at
    [flow.length + 1]) refuses every call with the 403 "No approver found
    for this level", and the store is untouched. *)
Theorem past_the_last_level_every_call_is_refused
    (clock : nat -> Time) (st : Store) (uid : ObjectId) (body : Body)
    (sub : Submission) (flow : Flow) :
  submissions st !! submissionId body = Some sub ->
  flowOf (populateTemplate st sub) = flow ->
  flow <> [] ->
  contiguous flow ->
  Z.of_nat (length flow) < currentLevel sub ->
  processApproval clock st uid body
  = (Forbidden403 "No approver found for this level", st).
Proof.
  intros Hsub Hflow Hne Hc Hpast.
  apply (processApproval_forbidden clock st uid body sub flow); try assumption.
  unfold checkApprover. destruct flow as [|x r]; [congruence|].
  simpl length. simpl Nat.eqb.
  now rewrite (contiguous_past_end (x :: r) (currentLevel sub) Hc Hpast).
Qed.

(** B approved the last level; B tries once more. *)
Lemma past_the_last_level_on_scenario :
  processApproval Scenario.clock
    (Scenario.store (Scenario.blank Scenario.formId "APPROVED" 3
                       [Scenario.approvedByA]))
    Scenario.userB (Scenario.act "rejected")
  = (Forbidden403 "No approver found for this level",
     Scenario.store (Scenario.blank Scenario.formId "APPROVED" 3
                       [Scenario.approvedByA])).
Proof.
  apply (past_the_last_level_every_call_is_refused Scenario.clock
           (Scenario.store (Scenario.blank Scenario.formId "APPROVED" 3
                              [Scenario.approvedByA]))
           Scenario.userB (Scenario.act "rejected")
           (Scenario.blank Scenario.formId "APPROVED" 3 [Scenario.approvedByA])
           Scenario.flowAB).
  - reflexivity.
  - reflexivity.
  - discriminate.
  - apply finalApprovalFlow_contiguous.
  - reflexivity.
Defined.

End Terminal.

(** ** Classification of the status string *)

Section Classification.

Import Approval.

Variable clock : nat -> Time.

(** C9, as stated, fails: A, authorized at level 1, sends the status
    "foo"; the entry "FOO" is not a value of the history enumeration, the
    save is refused and the submission neither advances nor is approved.
    Nor does "approved" take the approval path on the submission that is
    stored without [data]. *)
Lemma arbitrary_status_is_not_an_approval :
  authorized (Scenario.store Scenario.pending1) Scenario.flowAB
             Scenario.pending1 Scenario.userA
  /\ Js.toLowerCase "foo" <> "rejected"
  /\ processApproval Scenario.clock (Scenario.store Scenario.pending1)
                     Scenario.userA (Scenario.act "foo")
     = (ServerError500 "Failed to process approval",
        Scenario.store Scenario.pending1)
  /\ authorized (Scenario.store Scenario.createdEmpty) Scenario.flowAB
                Scenario.createdEmpty Scenario.userA
  /\ processApproval Scenario.clock (Scenario.store Scenario.createdEmpty)
                     Scenario.userA (Scenario.act "Approved")
     = (ServerError500 "Failed to process approval",
        Scenario.store Scenario.createdEmpty).
Proof.
  split; [|split; [|split; [|split]]].
  - right. exists (mkFlowEntry 1 (Some Scenario.userA)). split; reflexivity.
  - discriminate.
  - reflexivity.
  - right. exists (mkFlowEntry 1 (Some Scenario.userA)). split; reflexivity.
  - reflexivity.
Qed.

Lemma historyStatusEnum_cases (u : string) :
  inEnum historyStatusEnum u = true
  <-> u = "APPROVED" \/ u = "REJECTED" \/ u = "SUBMITTED".
Proof.
  unfold inEnum, historyStatusEnum. rewrite bool_decide_eq_true.
  rewrite !elem_of_cons, elem_of_nil. tauto.
Qed.

(** C9, amended. An authorized call is classified by the comparison of
    the lower-cased status with "rejected" alone. When the document is
    written with a payload (the stored one, or the one sent with the
    call, not empty), a case variant of "rejected" takes the rejection
    path, and a case variant of "approved" or "submitted" takes the
    approval path (advance to the next level, or APPROVED at
    [flow.length + 1], the level being a safe integer) and the entry
    records the upper-cased string; every other ASCII string is refused
    when the document is saved and nothing changes. *)
Theorem status_string_classification
    (st : Store) (uid : ObjectId) (body : Body) (sub : Submission)
    (flow : Flow) (s : string) :
  submissions st !! submissionId body = Some sub ->
  flowOf (populateTemplate st sub) = flow ->
  authorized st flow sub uid ->
  b_status body = Some s ->
  historyValid (approvalHistory sub) = true ->
  (Js.toLowerCase s = "rejected" ->
   carriesPayload (b_data body) sub ->
   exists msg sub' st',
     processApproval clock st uid body = (Ok200 msg sub', st')
     /\ submissions st' !! submissionId body = Some sub'
     /\ status sub' = "REJECTED"
     /\ currentLevel sub' = currentLevel sub)
  /\ (Js.toLowerCase s <> "rejected" ->
      Js.toUpperCase s = "APPROVED" \/ Js.toUpperCase s = "SUBMITTED" ->
      carriesPayload (b_data body) sub ->
      Js.isSafeInteger (currentLevel sub) = true ->
      exists msg sub' st',
        processApproval clock st uid body = (Ok200 msg sub', st')
        /\ submissions st' !! submissionId body = Some sub'
        /\ approvalHistory sub'
           = approvalHistory sub
             ++ [mkHistoryEntry (currentLevel sub) uid (Js.toUpperCase s)
                                (b_comments body) (clock 0%nat)]
        /\ ((status sub' = "PENDING_APPROVAL"
             /\ currentLevel sub' = currentLevel sub + 1
             /\ exists e, e ∈ flow /\ level e = currentLevel sub + 1)
            \/ (status sub' = "APPROVED"
                /\ currentLevel sub' = Z.of_nat (length flow) + 1
                /\ approvedBy sub' = Some uid
                /\ ~ exists e, e ∈ flow /\ level e = currentLevel sub + 1)))
  /\ (Js.isAscii s = true ->
      Js.toLowerCase s <> "rejected" ->
      Js.toUpperCase s <> "APPROVED" ->
      Js.toUpperCase s <> "SUBMITTED" ->
      processApproval clock st uid body
      = (ServerError500 "Failed to process approval", st)).
Proof.
  intros Hsub Hflow Hauth Hs Hh. split; [|split].
  - intros Hr Hp.
    assert (He : inEnum historyStatusEnum (Js.toUpperCase s) = true).
    { apply historyStatusEnum_cases. right; left. now apply rejected_iff. }
    pose proof (processApproval_accepted clock st uid body sub flow s
                  Hsub Hflow Hauth Hs Hp Hh He) as Hrun. cbv zeta in Hrun.
    eexists _, _, _. split; [exact Hrun|]. split; [apply lookup_insert_eq|].
    destruct (applyAction_reject clock flow uid s (b_comments body)
                (b_data body) sub Hr) as (? & _ & _ & ? & _).
    now split.
  - intros Hnr Hup Hp Hsafe. apply increment_safe in Hsafe.
    assert (He : inEnum historyStatusEnum (Js.toUpperCase s) = true).
    { apply historyStatusEnum_cases. tauto. }
    pose proof (processApproval_accepted clock st uid body sub flow s
                  Hsub Hflow Hauth Hs Hp Hh He) as Hrun. cbv zeta in Hrun.
    eexists _, _, _. split; [exact Hrun|]. split; [apply lookup_insert_eq|].
    split; [apply applyAction_history|].
    destruct (findLevel flow (Js.increment (currentLevel sub))) as [e|] eqn:Hf.
    + left.
      destruct (applyAction_advance clock flow uid s (b_comments body)
                  (b_data body) sub e Hnr Hf) as (? & ? & _).
      rewrite Hsafe in Hf.
      repeat split; try assumption; [congruence|].
      apply findLevel_is_Some. rewrite Hf. eauto.
    + right.
      destruct (applyAction_finish clock flow uid s (b_comments body)
                  (b_data body) sub Hnr Hf) as (? & _ & ? & ? & _).
      rewrite Hsafe in Hf.
      repeat split; try assumption. now apply findLevel_None.
  - intros _ Hnr Hna Hns.
    apply (processApproval_refused clock st uid body sub flow s); try assumption.
    apply not_true_is_false. intros He. apply historyStatusEnum_cases in He.
    destruct He as [He | [He | He]]; try congruence.
    apply rejected_iff in He. congruence.
Qed.

End Classification.

(** A sends "Submitted" at level 1 of the flow A, B. *)
Lemma status_string_classification_on_scenario :
  (Js.toLowerCase "Submitted" = "rejected" ->
   Approval.carriesPayload None Scenario.pending1 ->
   exists msg sub' st',
     Approval.processApproval Scenario.clock (Scenario.store Scenario.pending1)
       Scenario.userA (Scenario.act "Submitted") = (Ok200 msg sub', st')
     /\ submissions st' !! Scenario.subId = Some sub'
     /\ status sub' = "REJECTED"
     /\ currentLevel sub' = 1)
  /\ (Js.toLowerCase "Submitted" <> "rejected" ->
      Js.toUpperCase "Submitted" = "APPROVED"
      \/ Js.toUpperCase "Submitted" = "SUBMITTED" ->
      Approval.carriesPayload None Scenario.pending1 ->
      Js.isSafeInteger 1 = true ->
      exists msg sub' st',
        Approval.processApproval Scenario.clock
          (Scenario.store Scenario.pending1) Scenario.userA
          (Scenario.act "Submitted") = (Ok200 msg sub', st')
        /\ submissions st' !! Scenario.subId = Some sub'
        /\ approvalHistory sub'
           = [mkHistoryEntry 1 Scenario.userA "SUBMITTED" (Some "ok")
                             (Scenario.clock 0%nat)]
        /\ ((status sub' = "PENDING_APPROVAL"
             /\ currentLevel sub' = 1 + 1
             /\ exists e, e ∈ Scenario.flowAB /\ level e = 1 + 1)
            \/ (status sub' = "APPROVED"
                /\ currentLevel sub' = Z.of_nat (length Scenario.flowAB) + 1
                /\ approvedBy sub' = Some Scenario.userA
                /\ ~ exists e, e ∈ Scenario.flowAB /\ level e = 1 + 1)))
  /\ (Js.isAscii "Submitted" = true ->
      Js.toLowerCase "Submitted" <> "rejected" ->
      Js.toUpperCase "Submitted" <> "APPROVED" ->
      Js.toUpperCase "Submitted" <> "SUBMITTED" ->
      Approval.processApproval Scenario.clock
        (Scenario.store Scenario.pending1) Scenario.userA
        (Scenario.act "Submitted")
      = (ServerError500 "Failed to process approval",
         Scenario.store Scenario.pending1)).
Proof.
  apply (status_string_classification Scenario.clock
           (Scenario.store Scenario.pending1) Scenario.userA
           (Scenario.act "Submitted") Scenario.pending1 Scenario.flowAB
           "Submitted").
  - reflexivity.
  - reflexivity.
  - right. exists (mkFlowEntry 1 (Some Scenario.userA)). split; reflexivity.
  - reflexivity.
  - reflexivity.
Defined.

(** ** The second mutation path: updateStatus *)

Section UpdateStatus.

Import SubmissionCtl.

Variable clock : nat -> Time.

(** C10, as stated, fails: the requested value "draft" is upper-cased to
    "DRAFT", which the history enumeration does not contain; the save is
    refused, the status is not set and no entry is appended. And on the
    submission that is stored without [data] every requested value is
    refused, "approved" included. *)
Lemma updateStatus_refuses_draft :
  submissions (Scenario.store Scenario.pending1) !! Scenario.subId
  = Some Scenario.pending1
  /\ updateStatus Scenario.clock (Scenario.store Scenario.pending1)
                  Scenario.anyone Scenario.subId
                  (mkStatusBody (Some "draft") None)
     = (ServerError500 "Failed to update status",
        Scenario.store Scenario.pending1)
  /\ submissions (Scenario.store Scenario.createdEmpty) !! Scenario.subId
     = Some Scenario.createdEmpty
  /\ updateStatus Scenario.clock (Scenario.store Scenario.createdEmpty)
                  Scenario.anyone Scenario.subId
                  (mkStatusBody (Some "approved") None)
     = (ServerError500 "Failed to update status",
        Scenario.store Scenario.createdEmpty).
Proof. repeat split; reflexivity. Qed.

Lemma updateStatus_validate (sub : Submission) (e : HistoryEntry) (u : string)
    (sub' : Submission) :
  approvalHistory sub' = approvalHistory sub ++ [e] ->
  status sub' = u ->
  h_status e = u ->
  historyValid (approvalHistory sub) = true ->
  validate sub' = inEnum historyStatusEnum u.
Proof.
  intros Hh Hs He Hv. unfold validate.
  rewrite Hh, historyValid_app, Hv, Hs, He. simpl.
  destruct (inEnum historyStatusEnum u) eqn:Hin; [|apply andb_false_r].
  apply historyStatusEnum_cases in Hin.
  destruct Hin as [-> | [-> | ->]]; reflexivity.
Qed.

(** C10, amended. For every submission stored with a payload, every
    caller and every requested value whose upper-case form is APPROVED,
    REJECTED or SUBMITTED, [updateStatus] sets the status to that form,
    appends one entry at the submission's current level, stamps
    [approvedAt]/[approvedBy] or [rejectedAt]/[rejectedBy] for APPROVED or
    REJECTED, and leaves [currentLevel] unchanged, whatever the flow, the
    caller and the previous status; for any other ASCII value the save is
    refused and nothing changes. *)
Theorem updateStatus_bypasses_the_state_machine
    (st : Store) (user : AuthUser) (id : ObjectId) (body : StatusBody)
    (sub : Submission) (s : string) :
  submissions st !! id = Some sub ->
  s_status body = Some s ->
  historyValid (approvalHistory sub) = true ->
  (Js.toUpperCase s ∈ historyStatusEnum ->
   data sub <> [] ->
   exists sub' st',
     updateStatus clock st user id body
     = (Ok200 "Status updated successfully" sub', st')
     /\ submissions st' !! id = Some sub'
     /\ status sub' = Js.toUpperCase s
     /\ (exists e,
           approvalHistory sub' = approvalHistory sub ++ [e]
           /\ h_level e = currentLevel sub
           /\ h_approverId e = userId user
           /\ h_status e = Js.toUpperCase s)
     /\ currentLevel sub' = currentLevel sub
     /\ (Js.toUpperCase s = "APPROVED" ->
         approvedAt sub' = Some (clock 0%nat)
         /\ approvedBy sub' = Some (userId user))
     /\ (Js.toUpperCase s = "REJECTED" ->
         rejectedAt sub' = Some (clock 0%nat)
         /\ rejectedBy sub' = Some (userId user)))
  /\ (Js.isAscii s = true ->
      Js.toUpperCase s ∉ historyStatusEnum ->
      updateStatus clock st user id body
      = (ServerError500 "Failed to update status", st)).
Proof.
  intros Hsub Hs Hv. unfold updateStatus. rewrite Hs, Hsub.
  set (u := Js.toUpperCase s).
  set (stamped := bool_decide (u = "APPROVED") || bool_decide (u = "REJECTED")).
  set (e := mkHistoryEntry (currentLevel sub) (userId user) u _ _).
  set (sub3 := if bool_decide (u = "APPROVED") then _ else _).
  assert (Hfields :
    approvalHistory sub3 = approvalHistory sub ++ [e]
    /\ status sub3 = u /\ currentLevel sub3 = currentLevel sub
    /\ (u = "APPROVED" ->
        approvedAt sub3 = Some (clock 0%nat)
        /\ approvedBy sub3 = Some (userId user))
    /\ (u = "REJECTED" ->
        rejectedAt sub3 = Some (clock 0%nat)
        /\ rejectedBy sub3 = Some (userId user))).
  { unfold sub3. repeat case_bool_decide; simpl;
      repeat split; try reflexivity; congruence. }
  destruct Hfields as (Hh & Hst & Hl & Ha & Hr).
  unfold save.
  rewrite (updateStatus_validate sub e u sub3 Hh Hst eq_refl Hv).
  split.
  - intros Hin Hp. unfold inEnum, hasPayload.
    rewrite (bool_decide_eq_false_2 _ Hp), bool_decide_eq_true_2 by exact Hin.
    eexists _, _. split; [reflexivity|]. split; [apply lookup_insert_eq|].
    split; [exact Hst|]. split; [exists e; repeat split; exact Hh|].
    repeat split; try assumption; [apply Ha | apply Ha | apply Hr | apply Hr];
      assumption.
  - intros _ Hout. unfold inEnum.
    now rewrite bool_decide_eq_false_2, andb_false_r by exact Hout.
Qed.

End UpdateStatus.

(** C, who is bound to no level, approves the submission that waits for A. *)
Lemma updateStatus_on_scenario :
  (Js.toUpperCase "approved" ∈ historyStatusEnum ->
   data Scenario.pending1 <> [] ->
   exists sub' st',
     SubmissionCtl.updateStatus Scenario.clock
       (Scenario.store Scenario.pending1) Scenario.anyone Scenario.subId
       (SubmissionCtl.mkStatusBody (Some "approved") None)
     = (Ok200 "Status updated successfully" sub', st')
     /\ submissions st' !! Scenario.subId = Some sub'
     /\ status sub' = "APPROVED"
     /\ (exists e,
           approvalHistory sub' = [e]
           /\ h_level e = 1
           /\ h_approverId e = Scenario.userC
           /\ h_status e = "APPROVED")
     /\ currentLevel sub' = 1
     /\ (Js.toUpperCase "approved" = "APPROVED" ->
         approvedAt sub' = Some (Scenario.clock 0%nat)
         /\ approvedBy sub' = Some Scenario.userC)
     /\ (Js.toUpperCase "approved" = "REJECTED" ->
         rejectedAt sub' = Some (Scenario.clock 0%nat)
         /\ rejectedBy sub' = Some Scenario.userC))
  /\ (Js.isAscii "approved" = true ->
      Js.toUpperCase "approved" ∉ historyStatusEnum ->
      SubmissionCtl.updateStatus Scenario.clock
        (Scenario.store Scenario.pending1) Scenario.anyone Scenario.subId
        (SubmissionCtl.mkStatusBody (Some "approved") None)
      = (ServerError500 "Failed to update status",
         Scenario.store Scenario.pending1)).
Proof.
  apply (updateStatus_bypasses_the_state_machine Scenario.clock
           (Scenario.store Scenario.pending1) Scenario.anyone Scenario.subId
           (SubmissionCtl.mkStatusBody (Some "approved") None)
           Scenario.pending1 "approved").
  - reflexivity.
  - reflexivity.
  - reflexivity.
Defined.

(** ** Lifetimes *)

Section Lifetimes.

Import Approval Lifetime.

Lemma applyAction_template clock flow uid s comments newData sub :
  templateId (applyAction clock flow uid s comments newData sub) = templateId sub
  /\ templateModel (applyAction clock flow uid s comments newData sub)
     = templateModel sub.
Proof.
  unfold applyAction.
  destruct newData; case_bool_decide; simpl;
    try (destruct (findLevel flow _)); split; reflexivity.
Qed.

(** The level after the transition, under the invariant of the flow. *)
Lemma applyAction_level clock flow uid s comments newData sub :
  contiguous flow ->
  currentLevel sub <= Z.of_nat (length flow) + 1 ->
  currentLevel sub
  <= currentLevel (applyAction clock flow uid s comments newData sub)
  <= Z.of_nat (length flow) + 1.
Proof.
  intros Hc Hle.
  destruct (decide (Js.toLowerCase s = "rejected")) as [Hr | Hr].
  - destruct (applyAction_reject clock flow uid s comments newData sub Hr)
      as (_ & _ & _ & -> & _). lia.
  - destruct (findLevel flow (Js.increment (currentLevel sub))) as [e|] eqn:Hf.
    + destruct (applyAction_advance clock flow uid s comments newData sub e
                  Hr Hf) as (_ & -> & _).
      apply findLevel_Some in Hf as [Hin Hl].
      pose proof (contiguous_level_bounds flow e Hc Hin).
      pose proof (increment_le (currentLevel sub)). lia.
    + destruct (applyAction_finish clock flow uid s comments newData sub
                  Hr Hf) as (_ & _ & _ & -> & _). lia.
Qed.

(** The store after a call is the store before, or the store before with
    the transition written at the submission of the call. *)
Lemma processApproval_store clock st uid body :
  (processApproval clock st uid body).2 = st
  /\ (forall msg doc, (processApproval clock st uid body).1 <> Ok200 msg doc)
  \/ exists sub s,
       submissions st !! submissionId body = Some sub
       /\ b_status body = Some s
       /\ processApproval clock st uid body
          = (Ok200 ("Submission " ++ s ++ " successfully")%string
               (applyAction clock (flowOf (populateTemplate st sub)) uid s
                  (b_comments body) (b_data body) sub),
             mkStore
               (<[submissionId body :=
                    applyAction clock (flowOf (populateTemplate st sub)) uid s
                      (b_comments body) (b_data body) sub]> (submissions st))
               (forms st) (formTemplates st) (users st)).
Proof.
  unfold processApproval.
  destruct (submissions st !! submissionId body) as [sub|] eqn:Hsub;
    [|left; split; [reflexivity | discriminate]].
  destruct (checkApprover st _ sub uid);
    [left; split; [reflexivity | discriminate]|].
  destruct (b_status body) as [s|];
    [|left; split; [reflexivity | discriminate]].
  unfold save. destruct (payloadPresent _ _ && validate _);
    [|left; split; [reflexivity | discriminate]].
  right. exists sub, s. repeat split; reflexivity.
Qed.

(** One call keeps the templates, the template of the submission and the
    bound on its level, and is orderly. *)
Lemma perform_orderly st id sub flow c :
  submissions st !! id = Some sub ->
  flowOf (populateTemplate st sub) = flow ->
  contiguous flow ->
  currentLevel sub <= Z.of_nat (length flow) + 1 ->
  orderly id (st, c, (perform st c).1, (perform st c).2)
  /\ exists sub',
       submissions (perform st c).2 !! id = Some sub'
       /\ flowOf (populateTemplate (perform st c).2 sub') = flow
       /\ currentLevel sub' <= Z.of_nat (length flow) + 1.
Proof.
  intros Hsub Hflow Hc Hle. unfold perform, orderly, actioned.
  destruct (processApproval_store (c_clock c) st (c_user c) (c_body c))
    as [[Hst Hno] | (sub0 & s & Hsub0 & Hs & Hrun)].
  - rewrite Hst. cbn [fst snd]. split.
    + exists sub, sub. repeat split; try assumption; [lia|].
      destruct (processApproval _ _ _ _).1 eqn:Hr; try reflexivity.
      exfalso. eapply Hno. reflexivity.
    + exists sub. repeat split; assumption.
  - rewrite Hrun. cbn [fst snd submissions].
    destruct (decide (submissionId (c_body c) = id)) as [Heq | Hneq].
    + rewrite Heq in *. rewrite Hsub in Hsub0. injection Hsub0 as <-.
      rewrite Hflow in *. rewrite lookup_insert_eq.
      pose proof (applyAction_level (c_clock c) flow (c_user c) s
                    (b_comments (c_body c)) (b_data (c_body c)) sub Hc Hle)
        as Hlvl.
      pose proof (applyAction_template (c_clock c) flow (c_user c) s
                    (b_comments (c_body c)) (b_data (c_body c)) sub)
        as [Htid Htm].
      split.
      * eexists sub, _. split; [exact Hsub|]. split; [reflexivity|].
        split; [lia|]. rewrite bool_decide_eq_true_2 by reflexivity.
        eexists. split; [apply applyAction_history | reflexivity].
      * eexists. split; [reflexivity|]. split; [|lia].
        unfold populateTemplate. cbn [forms formTemplates].
        rewrite Htid, Htm. exact Hflow.
    + rewrite lookup_insert_ne by exact Hneq. split.
      * exists sub, sub. repeat split; try assumption; [lia|].
        now rewrite bool_decide_eq_false_2.
      * exists sub. repeat split; assumption.
Qed.

(** The invariant of a lifetime, from any state in which the flow is
    contiguous and the level at most [flow.length + 1]. *)
Lemma lifetime_from_bounded_level
    (st : Store) (id : ObjectId) (sub : Submission) (flow : Flow)
    (calls : list Call) :
  submissions st !! id = Some sub ->
  flowOf (populateTemplate st sub) = flow ->
  contiguous flow ->
  currentLevel sub <= Z.of_nat (length flow) + 1 ->
  Forall (orderly id) (trace st calls)
  /\ exists subF es,
       submissions (final st calls) !! id = Some subF
       /\ currentLevel sub <= currentLevel subF
       /\ approvalHistory subF = approvalHistory sub ++ es
       /\ length es = length (List.filter (actioned id) (trace st calls))
       /\ Forall (fun e => currentLevel sub <= h_level e <= currentLevel subF) es.
Proof.
  revert st sub. induction calls as [|c r IH]; intros st sub Hsub Hflow Hc Hle.
  - split; [constructor|]. exists sub, []. simpl.
    rewrite app_nil_r. repeat split; try assumption; [lia | constructor].
  - destruct (perform_orderly st id sub flow c Hsub Hflow Hc Hle)
      as [Hstep (sub1 & Hsub1 & Hflow1 & Hle1)].
    destruct (IH _ sub1 Hsub1 Hflow1 Hc Hle1)
      as [Hrest (subF & es & HF & HlF & HhF & Hlen & Hlv)].
    split; [constructor; assumption|].
    cbn [trace final fold_left List.filter]. fold (final (perform st c).2 r).
    destruct Hstep as (subA & subB & HA & HB & Hmono & Hact).
    cbn [fst snd] in HA, HB. rewrite Hsub in HA. injection HA as <-.
    rewrite Hsub1 in HB. injection HB as <-.
    destruct (actioned id (st, c, (perform st c).1, (perform st c).2)).
    + destruct Hact as (e & He & Hel). exists subF, (e :: es).
      split; [exact HF|]. split; [lia|].
      split; [rewrite HhF, He, <- app_assoc; reflexivity|].
      split; [simpl; lia|].
      constructor; [lia|].
      eapply Forall_impl; [exact Hlv|]. simpl. intros; lia.
    + subst sub1. exists subF, es. repeat split; assumption.
Qed.

(** What [createSubmission] has stored when it answers 201. *)
Lemma createSubmission_created clock newId uploads st0 user body msg sub st :
  SubmissionCtl.createSubmission clock newId uploads st0 user body
  = (Created201 msg sub, st) ->
  submissions st !! newId = Some sub
  /\ approvalHistory sub = []
  /\ (currentLevel sub = 0 \/ currentLevel sub = 1).
Proof.
  unfold SubmissionCtl.createSubmission.
  destruct (SubmissionCtl.c_data body); try discriminate;
    destruct (formTemplates st0 !! _); try destruct (forms st0 !! _);
    try discriminate; unfold save;
    match goal with |- context [validate ?x] => destruct (validate x) end;
    try discriminate; intros H; injection H as _ <- <-;
    (split; [apply lookup_insert_eq|]); (split; [reflexivity|]);
    cbn [currentLevel]; case_bool_decide; auto.
Qed.

(** One call, whatever the flow: the submission stays in the store and
    the step is appending. *)
Lemma perform_appending st id sub c :
  submissions st !! id = Some sub ->
  appending id (st, c, (perform st c).1, (perform st c).2)
  /\ exists sub', submissions (perform st c).2 !! id = Some sub'.
Proof.
  intros Hsub. unfold perform, appending, actioned.
  destruct (processApproval_store (c_clock c) st (c_user c) (c_body c))
    as [[Hst Hno] | (sub0 & s & Hsub0 & Hs & Hrun)].
  - rewrite Hst. cbn [fst snd]. split; [|eauto].
    exists sub, sub. repeat split; try assumption.
    destruct (processApproval _ _ _ _).1 eqn:Hr; try reflexivity.
    exfalso. eapply Hno. reflexivity.
  - rewrite Hrun. cbn [fst snd submissions].
    destruct (decide (submissionId (c_body c) = id)) as [Heq | Hneq].
    + rewrite Heq in *. rewrite Hsub in Hsub0. injection Hsub0 as <-.
      rewrite lookup_insert_eq. split; [|eauto].
      eexists sub, _. split; [exact Hsub|]. split; [reflexivity|].
      rewrite bool_decide_eq_true_2 by reflexivity.
      eexists. split; [apply applyAction_history | reflexivity].
    + rewrite lookup_insert_ne by exact Hneq. split; [|eauto].
      exists sub, sub. repeat split; try assumption.
      now rewrite bool_decide_eq_false_2.
Qed.

(** The history over a lifetime, whatever the flows and the levels. *)
Lemma lifetime_appends
    (st : Store) (id : ObjectId) (sub : Submission) (calls : list Call) :
  submissions st !! id = Some sub ->
  Forall (appending id) (trace st calls)
  /\ exists subF es,
       submissions (final st calls) !! id = Some subF
       /\ approvalHistory subF = approvalHistory sub ++ es
       /\ length es = length (List.filter (actioned id) (trace st calls)).
Proof.
  revert st sub. induction calls as [|c r IH]; intros st sub Hsub.
  - split; [constructor|]. exists sub, []. simpl.
    rewrite app_nil_r. repeat split; assumption.
  - destruct (perform_appending st id sub c Hsub) as [Hstep (sub1 & Hsub1)].
    destruct (IH _ sub1 Hsub1) as [Hrest (subF & es & HF & HhF & Hlen)].
    split; [constructor; assumption|].
    cbn [trace final fold_left List.filter]. fold (final (perform st c).2 r).
    destruct Hstep as (subA & subB & HA & HB & Hact).
    cbn [fst snd] in HA, HB. rewrite Hsub in HA. injection HA as <-.
    rewrite Hsub1 in HB. injection HB as <-.
    destruct (actioned id (st, c, (perform st c).1, (perform st c).2)).
    + destruct Hact as (e & He & Hel). exists subF, (e :: es).
      split; [exact HF|].
      split; [rewrite HhF, He, <- app_assoc; reflexivity|].
      simpl; lia.
    + subst sub1. exists subF, es. repeat split; assumption.
Qed.

(** C7, as stated, fails on the level. On a form whose stored levels are
    1, 4 and 5, the approvals of A, B and C leave the submission at the
    levels 4, 5 and 4. And when [updateForm] has emptied the flow of a
    form, the approval of anyone moves a submission that waited at level
    2 to level [0 + 1]. *)
Lemma currentLevel_can_decrease :
  Scenario.levelsAlong Scenario.sparseStore Scenario.approvalsABC
  = [Some 4; Some 5; Some 4]
  /\ currentLevel Scenario.pending2 = 2
  /\ exists msg sub' st',
       processApproval Scenario.clock (Scenario.emptied Scenario.pending2)
                       Scenario.userC (Scenario.act "approved")
       = (Ok200 msg sub', st')
       /\ submissions st' !! Scenario.subId = Some sub'
       /\ currentLevel sub' = 1.
Proof.
  split; [vm_compute; reflexivity|]. split; [reflexivity|].
  eexists _, _, _. split; [vm_compute; reflexivity|].
  split; reflexivity.
Qed.

(** C7, amended. Over any sequence of [processApproval] calls (any
    actors, any statuses, any target submissions) on a store that holds
    the submission, whatever the flows: every step is appending, so an
    accepted action appends exactly one entry, carrying the level at the
    time of the action, to the history it found, and no other call
    touches the submission; the final history is the initial one followed
    by as many entries as there were accepted actions. When moreover the
    flow of the submission is contiguous and the submission starts at a
    level of at most [flow.length + 1], as [createSubmission] leaves it,
    every step is orderly: the level never decreases. *)
Theorem lifetime_is_monotone_and_append_only
    (st : Store) (id : ObjectId) (sub : Submission) (calls : list Call) :
  submissions st !! id = Some sub ->
  (Forall (appending id) (trace st calls)
   /\ exists subF es,
        submissions (final st calls) !! id = Some subF
        /\ approvalHistory subF = approvalHistory sub ++ es
        /\ length es = length (List.filter (actioned id) (trace st calls)))
  /\ (contiguous (flowOf (populateTemplate st sub)) ->
      currentLevel sub
      <= Z.of_nat (length (flowOf (populateTemplate st sub))) + 1 ->
      Forall (orderly id) (trace st calls)
      /\ exists subF,
           submissions (final st calls) !! id = Some subF
           /\ currentLevel sub <= currentLevel subF).
Proof.
  intros Hsub. split; [exact (lifetime_appends st id sub calls Hsub)|].
  intros Hc Hle.
  destruct (lifetime_from_bounded_level st id sub _ calls Hsub eq_refl Hc Hle)
    as [Hsteps (subF & es & HF & Hmono & _)].
  split; [exact Hsteps|]. exists subF. split; assumption.
Qed.

End Lifetimes.

(** The lifetime of [Scenario.calls] after the creation on the flow A, B. *)
Lemma lifetime_on_scenario :
  (Forall (Lifetime.appending Scenario.subId)
          (Lifetime.trace (Scenario.store Scenario.created) Scenario.calls)
   /\ exists subF es,
        submissions (Lifetime.final (Scenario.store Scenario.created)
                                    Scenario.calls) !! Scenario.subId
        = Some subF
        /\ approvalHistory subF = [] ++ es
        /\ length es
           = length (List.filter (Lifetime.actioned Scenario.subId)
                       (Lifetime.trace (Scenario.store Scenario.created)
                                       Scenario.calls)))
  /\ (Forall (Lifetime.orderly Scenario.subId)
             (Lifetime.trace (Scenario.store Scenario.created) Scenario.calls)
      /\ exists subF,
           submissions (Lifetime.final (Scenario.store Scenario.created)
                                       Scenario.calls) !! Scenario.subId
           = Some subF
           /\ 1 <= currentLevel subF).
Proof.
  destruct (lifetime_is_monotone_and_append_only
              (Scenario.store Scenario.created) Scenario.subId
              Scenario.created Scenario.calls eq_refl) as [Happend Hmono].
  split; [exact Happend|]. apply Hmono.
  - apply finalApprovalFlow_contiguous.
  - vm_compute. discriminate.
Defined.

(** ** Analytics *)

Section AnalyticsProperties.

Import SubmissionCtl.

(** C8, as stated, fails on the completion rate: of the three sample
    submissions one is approved, and the handler reports 33, which is
    neither the ratio 1/3 nor, read as a percentage, equal to it. *)
Lemma completion_rate_is_not_the_ratio :
  a_total (getTemplateAnalytics Scenario.archive Scenario.anyone Scenario.formId)
  = 3%nat
  /\ a_approved
       (getTemplateAnalytics Scenario.archive Scenario.anyone Scenario.formId)
     = 1%nat
  /\ a_completionRate
       (getTemplateAnalytics Scenario.archive Scenario.anyone Scenario.formId)
     = 33
  /\ ~ (inject_Z 33 == 1 # 3)%Q
  /\ ~ (inject_Z 33 / inject_Z 100 == 1 # 3)%Q.
Proof.
  split; [vm_compute; reflexivity|]. split; [vm_compute; reflexivity|].
  split; [vm_compute; reflexivity|]. split; intros H; vm_compute in H; lia.
Qed.

(** A boolean filter of the code counts what the corresponding
    proposition describes. *)
Lemma filter_bool_prop {A} (f : A -> bool) (P : A -> Prop)
    `{!forall x, Decision (P x)} (l : list A) :
  (forall x, f x = true <-> P x) ->
  List.filter f l = filter P l.
Proof.
  intros Hfp. induction l as [|a l IH]; [reflexivity|].
  simpl. rewrite filter_cons, IH.
  destruct (f a) eqn:Hfa; destruct (decide (P a)) as [Hp | Hp];
    try reflexivity.
  - exfalso. apply Hp, Hfp, Hfa.
  - apply Hfp in Hp. congruence.
Qed.

Lemma approvedAt_level_spec (lvl : Z) (sub : Submission) :
  approvedAt_level lvl sub = true
  <-> Exists (fun h => h_level h = lvl /\ h_status h = "APPROVED")
             (approvalHistory sub).
Proof.
  unfold approvedAt_level. rewrite existsb_exists, Exists_exists.
  split; intros [h [Hin Hh]]; exists h.
  - apply andb_true_iff in Hh as [Hl Hs]. apply bool_decide_eq_true in Hs.
    split; [now apply list_elem_of_In|]. split; [lia | exact Hs].
  - destruct Hh as [Hl Hs]. split; [now apply list_elem_of_In|].
    apply andb_true_iff. split; [lia | now apply bool_decide_eq_true].
Qed.

Lemma timedApproval_spec (s : Submission) :
  timedApproval s = true
  <-> status s = "APPROVED" /\ is_Some (approvedAt s)
      /\ is_Some (submittedAt s).
Proof.
  unfold timedApproval. rewrite !andb_true_iff, !bool_decide_eq_true. tauto.
Qed.

(** [Math.round] of the percentage, in integers. *)
Lemma Math_round_percentage (a t : Z) :
  0 < t ->
  Math_round ((a # 1) / (t # 1) * (100 # 1))%Q = (200 * a + t) / (2 * t).
Proof.
  intros Ht. unfold Math_round.
  destruct t as [|p|p]; try lia.
  assert (Heq : ((a # 1) / (Z.pos p # 1) * (100 # 1) + (1 # 2)
                 == (200 * a + Z.pos p) # (2 * p))%Q).
  { unfold Qeq, Qdiv, Qmult, Qinv, Qplus. simpl. lia. }
  rewrite (Qfloor_comp _ _ Heq). reflexivity.
Qed.

Lemma fold_left_durations (l : list Submission) (z : Z) :
  fold_left (fun acc sub => acc + approvalDuration sub) l z
  = z + foldr Z.add 0 (map approvalDuration l).
Proof.
  revert z. induction l as [|s l IH]; intros z; simpl; [lia|].
  rewrite IH. lia.
Qed.

Lemma levelStatsOf_lookup (subs : list Submission) (n L : nat) :
  (1 <= L <= n)%nat ->
  levelStatsOf subs n !! (L - 1)%nat
  = Some (mkLevelStat (Z.of_nat L)
            (length (List.filter (approvedAt_level (Z.of_nat L)) subs))
            (length subs)).
Proof.
  intros HL. unfold levelStatsOf.
  rewrite list_lookup_fmap, lookup_seq_lt by lia. simpl.
  replace (S (L - 1)) with L by lia. reflexivity.
Qed.

End AnalyticsProperties.

Section AnalyticsTheorem.

Import SubmissionCtl.

(** C8, amended. The analytics are computed from the submissions alone.
    For each level L from 1 to the length of the flow, the L-th level
    statistic counts the submissions whose history has an APPROVED entry
    of level L, out of all submissions. The completion rate is an
    integer percentage nearest to 100 * approved / total (within one
    half of it), and 0 when there is no submission. The average approval
    time is the mean of [approvedAt - submittedAt] over the APPROVED
    submissions that carry both dates, and 0 when there is none. The
    totals, the rate and the mean do not depend on the flow. *)
Theorem analytics_counts_percentage_and_mean
    (subs : list Submission) (wf : Flow) :
  (forall L : nat,
     (1 <= L <= length wf)%nat ->
     a_levelStats (analyticsOf subs wf) !! (L - 1)%nat
     = Some (mkLevelStat (Z.of_nat L)
               (length
                  (filter (fun s =>
                             Exists (fun h => h_level h = Z.of_nat L
                                              /\ h_status h = "APPROVED")
                                    (approvalHistory s)) subs))
               (length subs)))
  /\ a_total (analyticsOf subs wf) = length subs
  /\ a_approved (analyticsOf subs wf)
     = length (filter (fun s => status s = "APPROVED") subs)
  /\ (subs = [] -> a_completionRate (analyticsOf subs wf) = 0)
  /\ (subs <> [] ->
      200 * Z.of_nat (a_approved (analyticsOf subs wf))
      - Z.of_nat (length subs)
      <= 2 * a_completionRate (analyticsOf subs wf) * Z.of_nat (length subs)
      <= 200 * Z.of_nat (a_approved (analyticsOf subs wf))
         + Z.of_nat (length subs))
  /\ (filter (fun s => status s = "APPROVED" /\ is_Some (approvedAt s)
                       /\ is_Some (submittedAt s)) subs = [] ->
      (a_avgApprovalTimeMs (analyticsOf subs wf) == 0)%Q)
  /\ (filter (fun s => status s = "APPROVED" /\ is_Some (approvedAt s)
                       /\ is_Some (submittedAt s)) subs <> [] ->
      (a_avgApprovalTimeMs (analyticsOf subs wf)
       * inject_Z
           (Z.of_nat
              (length
                 (filter (fun s => status s = "APPROVED"
                                   /\ is_Some (approvedAt s)
                                   /\ is_Some (submittedAt s)) subs)))
       == inject_Z
            (foldr Z.add 0
               (map (fun s => default 0 (approvedAt s)
                              - default 0 (submittedAt s))
                  (filter (fun s => status s = "APPROVED"
                                    /\ is_Some (approvedAt s)
                                    /\ is_Some (submittedAt s)) subs)))%Z)%Q).
Proof.
  split.
  { intros L HL.
    rewrite <- (filter_bool_prop (approvedAt_level (Z.of_nat L)) _ subs
                  (approvedAt_level_spec (Z.of_nat L))).
    unfold analyticsOf. cbn [a_levelStats].
    apply levelStatsOf_lookup; exact HL. }
  rewrite <- (filter_bool_prop
                (fun s => bool_decide (status s = "APPROVED")) _ subs
                (fun s => bool_decide_eq_true (status s = "APPROVED"))).
  rewrite <- (filter_bool_prop timedApproval _ subs timedApproval_spec).
  unfold analyticsOf. cbn [a_levelStats a_total a_approved a_completionRate
                           a_avgApprovalTimeMs].
  split; [reflexivity|]. split; [reflexivity|].
  split; [intros ->; reflexivity|].
  set (approved := length (List.filter _ subs)).
  split.
  - intros Hne.
    assert (Ht : 0 < Z.of_nat (length subs)) by (destruct subs; simpl; [congruence | lia]).
    replace (0 <? length subs)%nat with true
      by (symmetry; apply Nat.ltb_lt; lia).
    rewrite Math_round_percentage by exact Ht.
    pose proof (Z.div_mod (200 * Z.of_nat approved + Z.of_nat (length subs))
                  (2 * Z.of_nat (length subs)) ltac:(lia)) as Hdm.
    pose proof (Z.mod_pos_bound
                  (200 * Z.of_nat approved + Z.of_nat (length subs))
                  (2 * Z.of_nat (length subs)) ltac:(lia)) as Hmb.
    lia.
  - set (timed := List.filter timedApproval subs). split.
    + intros ->. reflexivity.
    + intros Hne.
      assert (Hn : (0 < length timed)%nat) by (destruct timed; simpl; [congruence | lia]).
      replace (0 <? length timed)%nat with true
        by (symmetry; apply Nat.ltb_lt; lia).
      rewrite fold_left_durations, Z.add_0_l.
      assert (Hmap :
        map approvalDuration timed
        = map (fun s => default 0 (approvedAt s) - default 0 (submittedAt s))
              timed).
      { apply map_ext_in. intros s Hin. apply filter_In in Hin as [_ Hs].
        apply timedApproval_spec in Hs as (_ & [a Ha] & [b Hb]).
        unfold approvalDuration. rewrite Ha, Hb. reflexivity. }
      rewrite Hmap. unfold inject_Z.
      rewrite Qmult_comm. apply Qmult_div_r.
      unfold Qeq. simpl. lia.
Qed.

End AnalyticsTheorem.

(** Level 2 of the flow A, B on the three sample submissions. *)
Lemma analytics_on_scenario :
  (1 <= 2 <= length Scenario.flowAB)%nat
  /\ SubmissionCtl.a_levelStats
       (SubmissionCtl.analyticsOf Scenario.sample Scenario.flowAB)
     !! (2 - 1)%nat
     = Some (SubmissionCtl.mkLevelStat 2 1 3)
  /\ SubmissionCtl.a_completionRate
       (SubmissionCtl.analyticsOf Scenario.sample Scenario.flowAB) = 33
  /\ (SubmissionCtl.a_avgApprovalTimeMs
        (SubmissionCtl.analyticsOf Scenario.sample Scenario.flowAB)
      == inject_Z 5400000)%Q.
Proof.
  assert (HL : (1 <= 2 <= length Scenario.flowAB)%nat) by (vm_compute; lia).
  destruct (analytics_counts_percentage_and_mean Scenario.sample
              Scenario.flowAB) as (Hlevel & _ & _ & _ & _ & _ & _).
  split; [exact HL|]. split; [exact (Hlevel 2%nat HL)|]. split; reflexivity.
Defined.

(** * Further properties of the handlers *)

(** ** What the handlers leave alone *)

Section Frames.

Import Approval SubmissionCtl.

(** X1. [processApproval] writes nothing but the submission it is asked
    about: forms, templates and users are the same afterwards, no
    submission is created or deleted, and every other submission is
    unchanged. *)
Theorem processApproval_touches_one_submission
    (clock : nat -> Time) (st : Store) (uid : ObjectId) (body : Body) :
  forms (processApproval clock st uid body).2 = forms st
  /\ formTemplates (processApproval clock st uid body).2 = formTemplates st
  /\ users (processApproval clock st uid body).2 = users st
  /\ dom (submissions (processApproval clock st uid body).2)
     = dom (submissions st)
  /\ forall id, id <> submissionId body ->
       submissions (processApproval clock st uid body).2 !! id
       = submissions st !! id.
Proof.
  destruct (processApproval_store clock st uid body)
    as [[-> _] | (sub & s & Hsub & _ & ->)].
  - repeat split; reflexivity.
  - cbn [snd forms formTemplates users submissions].
    split; [reflexivity|]. split; [reflexivity|]. split; [reflexivity|].
    split.
    + apply dom_insert_lookup_L. eauto.
    + intros id Hne. now apply lookup_insert_ne.
Qed.

(** X4. The payload of a submission changes only through an accepted
    call that carries data, and then it is the data that was sent; a
    refused call leaves the whole submission as it was, data included. *)
Theorem payload_changes_only_with_an_accepted_edit
    (clock : nat -> Time) (st : Store) (uid : ObjectId) (body : Body)
    (sub : Submission) :
  submissions st !! submissionId body = Some sub ->
  exists sub',
    submissions (processApproval clock st uid body).2 !! submissionId body
    = Some sub'
    /\ ((exists msg, (processApproval clock st uid body).1 = Ok200 msg sub'
                     /\ data sub' = match b_data body with
                                    | Some d => d
                                    | None => data sub
                                    end)
        \/ ((forall msg doc,
               (processApproval clock st uid body).1 <> Ok200 msg doc)
            /\ sub' = sub)).
Proof.
  intros Hsub.
  destruct (processApproval_store clock st uid body)
    as [[Hst Hno] | (sub0 & s & Hsub0 & _ & Hrun)].
  - exists sub. rewrite Hst. split; [exact Hsub|]. right. now split.
  - rewrite Hsub in Hsub0. injection Hsub0 as <-. rewrite Hrun.
    eexists. cbn [fst snd submissions]. split; [apply lookup_insert_eq|].
    left. eexists. split; [reflexivity|]. apply applyAction_data.
Qed.

(** The store after [updateStatus]. *)
Lemma updateStatus_store clock st user id body :
  (updateStatus clock st user id body).2 = st
  \/ exists sub',
       validate sub' = true
       /\ (updateStatus clock st user id body).2
          = mkStore (<[id := sub']> (submissions st)) (forms st)
                    (formTemplates st) (users st).
Proof.
  unfold updateStatus.
  destruct (s_status body); [|now left].
  destruct (submissions st !! id); [|now left].
  unfold save. destruct (hasPayload _); [|now left]. rewrite andb_true_l.
  match goal with |- context [validate ?x] => destruct (validate x) eqn:Hv end;
    [|now left].
  right. eexists. split; [exact Hv | reflexivity].
Qed.

(** The store after [createSubmission]. *)
Lemma createSubmission_store clock newId uploads st user body :
  (createSubmission clock newId uploads st user body).2 = st
  \/ exists sub,
       validate sub = true
       /\ (createSubmission clock newId uploads st user body).2
          = mkStore (<[newId := sub]> (submissions st)) (forms st)
                    (formTemplates st) (users st).
Proof.
  unfold createSubmission.
  destruct (c_data body); [now left| |];
    (destruct (formTemplates st !! c_templateId body);
       [|destruct (forms st !! c_templateId body)]); try (now left);
    unfold save;
    match goal with |- context [validate ?x] => destruct (validate x) eqn:Hv end;
    try (now left); right; eexists; (split; [exact Hv | reflexivity]).
Qed.

(** X5. The three writers keep the store valid: if every stored
    submission satisfies the enumerations of the schema, so does every
    submission stored
    after [processApproval], after [updateStatus] and after
    [createSubmission]. *)
Theorem writers_keep_the_store_valid
    (clock : nat -> Time) (st : Store) (user : AuthUser) (id : ObjectId)
    (abody : Body) (sbody : StatusBody) (cbody : CreateBody)
    (uploads : list (string * string)) :
  storeValid st ->
  storeValid (processApproval clock st (userId user) abody).2
  /\ storeValid (updateStatus clock st user id sbody).2
  /\ storeValid (createSubmission clock id uploads st user cbody).2.
Proof.
  intros Hst. unfold storeValid in *. split; [|split].
  - destruct (processApproval_store clock st (userId user) abody)
      as [[-> _] | (sub & s & Hsub & Hs & Hrun)]; [exact Hst|].
    pose proof Hrun as Hrun'. unfold processApproval in Hrun'.
    rewrite Hsub in Hrun'.
    destruct (checkApprover st _ sub (userId user)); [discriminate|].
    rewrite Hs in Hrun'. unfold save in Hrun'.
    destruct (payloadPresent _ _ && validate _) eqn:Hpv; [|discriminate].
    apply andb_true_iff in Hpv as [_ Hv].
    rewrite Hrun. cbn [snd submissions].
    apply map_Forall_insert_2; assumption.
  - destruct (updateStatus_store clock st user id sbody)
      as [-> | (sub' & Hv & ->)]; [exact Hst|].
    cbn [submissions]. apply map_Forall_insert_2; assumption.
  - destruct (createSubmission_store clock id uploads st user cbody)
      as [-> | (sub & Hv & ->)]; [exact Hst|].
    cbn [submissions]. apply map_Forall_insert_2; assumption.
Qed.

End Frames.

(** ** Flows written by the form controller *)

Section WrittenFlows.

Import Approval.

Lemma findLevel_imap (l : list (option ObjectId)) (k i : nat)
    (a : option ObjectId) :
  l !! i = Some a ->
  findLevel (imap (fun j x => mkFlowEntry (Z.of_nat (k + j) + 1) x) l)
            (Z.of_nat (k + i) + 1)
  = Some (mkFlowEntry (Z.of_nat (k + i) + 1) a).
Proof.
  revert k i. induction l as [|x l IH]; intros k i Hi; [discriminate|].
  destruct i as [|i]; simpl in Hi.
  - injection Hi as ->. unfold findLevel. simpl.
    now rewrite Z.eqb_refl.
  - unfold findLevel. simpl.
    replace (Z.of_nat (k + 0) + 1 =? Z.of_nat (k + S i) + 1) with false
      by (symmetry; apply Z.eqb_neq; lia).
    specialize (IH (S k) i Hi). unfold findLevel in IH.
    replace (Z.of_nat (k + S i) + 1) with (Z.of_nat (S k + i) + 1) by lia.
    rewrite <- IH. f_equal. apply imap_ext. intros j y _. simpl.
    do 2 f_equal. lia.
Qed.

Lemma findLevel_finalApprovalFlow (levels : list (option ObjectId)) (i : nat)
    (a : option ObjectId) :
  levels !! i = Some a ->
  findLevel (FormCtl.finalApprovalFlow levels) (Z.of_nat i + 1)
  = Some (mkFlowEntry (Z.of_nat i + 1) a).
Proof. intros Hi. exact (findLevel_imap levels 0 i a Hi). Qed.

(** X6. Whatever levels the client sent, the flow that [createForm] and
    [updateForm] store has as many entries as were sent, numbered 1, 2,
    ..., N in the order sent: the lookup of level [i + 1] finds the
    approver sent at position [i], and no level past N exists. *)
Theorem stored_flow_is_renumbered_in_order
    (levels : list (option ObjectId)) :
  length (FormCtl.finalApprovalFlow levels) = length levels
  /\ contiguous (FormCtl.finalApprovalFlow levels)
  /\ (forall i a, levels !! i = Some a ->
        findLevel (FormCtl.finalApprovalFlow levels) (Z.of_nat i + 1)
        = Some (mkFlowEntry (Z.of_nat i + 1) a))
  /\ (forall lvl, Z.of_nat (length levels) < lvl ->
        findLevel (FormCtl.finalApprovalFlow levels) lvl = None).
Proof.
  assert (Hlen : length (FormCtl.finalApprovalFlow levels) = length levels)
    by apply length_imap.
  split; [exact Hlen|]. split; [apply finalApprovalFlow_contiguous|].
  split; [apply findLevel_finalApprovalFlow|].
  intros lvl Hlvl. apply contiguous_past_end;
    [apply finalApprovalFlow_contiguous | rewrite Hlen; exact Hlvl].
Qed.

End WrittenFlows.

(** ** The open policy of a submission without flow *)

Section OpenPolicy.

Import Approval.

(** X2. When the template of a submission has no approval flow, an empty
    one, or no longer exists, any caller may act on it: when the document
    is written with a payload (the stored one, or the one sent with the
    call, not empty), the call is accepted whoever sends it, and unless
    it is a rejection the submission is at once APPROVED by that caller,
    at level 1. *)
Theorem without_flow_anyone_may_act
    (clock : nat -> Time) (st : Store) (uid : ObjectId) (body : Body)
    (sub : Submission) (s : string) :
  submissions st !! submissionId body = Some sub ->
  flowOf (populateTemplate st sub) = [] ->
  b_status body = Some s ->
  Js.toUpperCase s ∈ historyStatusEnum ->
  carriesPayload (b_data body) sub ->
  historyValid (approvalHistory sub) = true ->
  exists msg sub' st',
    processApproval clock st uid body = (Ok200 msg sub', st')
    /\ submissions st' !! submissionId body = Some sub'
    /\ approvalHistory sub'
       = approvalHistory sub
         ++ [mkHistoryEntry (currentLevel sub) uid (Js.toUpperCase s)
                            (b_comments body) (clock 0%nat)]
    /\ (Js.toLowerCase s <> "rejected" ->
        status sub' = "APPROVED" /\ currentLevel sub' = 1
        /\ approvedBy sub' = Some uid).
Proof.
  intros Hsub Hflow Hs Hin Hp Hh.
  assert (Hauth : authorized st [] sub uid) by now left.
  assert (He : inEnum historyStatusEnum (Js.toUpperCase s) = true)
    by (unfold inEnum; now apply bool_decide_eq_true).
  pose proof (processApproval_accepted clock st uid body sub [] s
                Hsub Hflow Hauth Hs Hp Hh He) as Hrun. cbv zeta in Hrun.
  eexists _, _, _. split; [exact Hrun|]. split; [apply lookup_insert_eq|].
  split; [apply applyAction_history|].
  intros Hnr.
  destruct (applyAction_finish clock [] uid s (b_comments body)
              (b_data body) sub Hnr eq_refl) as (? & _ & ? & ? & _).
  repeat split; assumption.
Qed.

(** A template that populates to nothing has the empty flow. *)
Lemma dangling_template_has_no_flow (st : Store) (sub : Submission) :
  populateTemplate st sub = None -> flowOf (populateTemplate st sub) = [].
Proof. now intros ->. Qed.

End OpenPolicy.

(** ** From level 1 to APPROVED *)

Section FullRun.

Import Approval Lifetime.

Lemma approverIdString_known st a lvl :
  is_Some (users st !! a) ->
  approverIdString st (mkFlowEntry lvl (Some a)) = Some a.
Proof. intros [u Hu]. unfold approverIdString. simpl. now rewrite Hu. Qed.

Lemma populateTemplate_after_action st id sub sub' :
  templateId sub' = templateId sub ->
  templateModel sub' = templateModel sub ->
  populateTemplate
    (mkStore (<[id := sub']> (submissions st)) (forms st) (formTemplates st)
             (users st)) sub'
  = populateTemplate st sub.
Proof. intros Ht Hm. unfold populateTemplate. simpl. now rewrite Ht, Hm. Qed.

(** The run from the level of the [k + 1]-th approver on. *)
Lemma approvals_from_level
    (id : ObjectId) (approvers : list ObjectId) (rest : list ObjectId) :
  Z.of_nat (length approvers) < 2 ^ 53 ->
  forall (calls : list Call) (k : nat) (st : Store) (sub : Submission),
  rest <> [] ->
  drop k approvers = rest ->
  submissions st !! id = Some sub ->
  flowOf (populateTemplate st sub)
  = FormCtl.finalApprovalFlow (Some <$> approvers) ->
  (forall a, a ∈ approvers -> is_Some (users st !! a)) ->
  currentLevel sub = Z.of_nat k + 1 ->
  data sub <> [] ->
  historyValid (approvalHistory sub) = true ->
  Forall2 (fun a c =>
             c_user c = a /\ submissionId (c_body c) = id
             /\ b_data (c_body c) <> Some []
             /\ exists s, b_status (c_body c) = Some s
                          /\ Js.toUpperCase s = "APPROVED")
          rest calls ->
  exists subF es,
    submissions (final st calls) !! id = Some subF
    /\ status subF = "APPROVED"
    /\ currentLevel subF = Z.of_nat (length approvers) + 1
    /\ approvedBy subF = last rest
    /\ approvalHistory subF = approvalHistory sub ++ es
    /\ map h_approverId es = rest
    /\ map h_level es = map (fun i => Z.of_nat i + 1) (seq k (length rest))
    /\ Forall (fun e => h_status e = "APPROVED") es.
Proof.
  intros Hbig.
  induction rest as [|a rest IH]; intros calls k st sub Hne Hdrop Hsub Hflow
    Husers Hlvl Hd Hh Hcalls; [congruence|].
  destruct calls as [|c calls']; [inversion Hcalls|].
  apply Forall2_cons_1 in Hcalls as [(Hu & Hid & Hnd & s & Hs & Hup) Hrest].
  set (flow := FormCtl.finalApprovalFlow (Some <$> approvers)) in *.
  assert (Hk : approvers !! k = Some a).
  { rewrite <- (Nat.add_0_r k), <- lookup_drop, Hdrop. reflexivity. }
  assert (Hfind : findLevel flow (currentLevel sub)
                  = Some (mkFlowEntry (Z.of_nat k + 1) (Some a))).
  { rewrite Hlvl. apply findLevel_finalApprovalFlow.
    rewrite list_lookup_fmap, Hk. reflexivity. }
  assert (Hauth : authorized st flow sub a).
  { right. eexists. split; [exact Hfind|].
    apply approverIdString_known, Husers.
    apply list_elem_of_lookup. eauto. }
  assert (He : inEnum historyStatusEnum (Js.toUpperCase s) = true)
    by (rewrite Hup; reflexivity).
  assert (Hnr : Js.toLowerCase s <> "rejected")
    by (apply (not_rejected_of_upper s "APPROVED"); [exact Hup | discriminate]).
  rewrite <- Hid in Hsub.
  destruct (carriesPayload_kept (c_clock c) flow a s (b_comments (c_body c))
              (b_data (c_body c)) sub Hd Hnd) as [Hp Hd1].
  pose proof (processApproval_accepted (c_clock c) st a (c_body c) sub flow s
                Hsub Hflow Hauth Hs Hp Hh He) as Hrun. cbv zeta in Hrun.
  set (sub1 := applyAction (c_clock c) flow a s (b_comments (c_body c))
                 (b_data (c_body c)) sub) in *.
  assert (Hhist1 : approvalHistory sub1
                   = approvalHistory sub
                     ++ [mkHistoryEntry (currentLevel sub) a "APPROVED"
                           (b_comments (c_body c)) (c_clock c 0%nat)]).
  { unfold sub1. rewrite applyAction_history, Hup. reflexivity. }
  cbn [final fold_left].
  change (perform st c)
    with (processApproval (c_clock c) st (c_user c) (c_body c)).
  rewrite Hu, Hrun.
  cbn [snd]. fold (final
    (mkStore (<[submissionId (c_body c) := sub1]> (submissions st))
             (forms st) (formTemplates st) (users st)) calls').
  assert (Hlen : length approvers = (k + S (length rest))%nat).
  { pose proof (length_drop approvers k) as Hdl. rewrite Hdrop in Hdl.
    simpl in Hdl. pose proof (lookup_lt_Some _ _ _ Hk). lia. }
  assert (Hinc : Js.increment (currentLevel sub) = currentLevel sub + 1).
  { apply increment_safe. unfold Js.isSafeInteger. rewrite Hlvl.
    apply andb_true_iff. split; apply Z.ltb_lt; lia. }
  destruct rest as [|b rest].
  - (* the last level *)
    inversion Hrest; subst calls'. cbn [final fold_left].
    assert (Hnone : findLevel flow (Js.increment (currentLevel sub)) = None).
    { rewrite Hinc.
      apply contiguous_past_end; [apply finalApprovalFlow_contiguous|].
      unfold flow, FormCtl.finalApprovalFlow.
      rewrite length_imap, length_fmap, Hlen. simpl. lia. }
    destruct (applyAction_finish (c_clock c) flow a s (b_comments (c_body c))
                (b_data (c_body c)) sub Hnr Hnone)
      as (Hst1 & _ & Hby & Hl1 & _).
    fold sub1 in Hst1, Hby, Hl1.
    exists sub1, [mkHistoryEntry (currentLevel sub) a "APPROVED"
                    (b_comments (c_body c)) (c_clock c 0%nat)].
    rewrite Hid. split; [apply lookup_insert_eq|]. split; [exact Hst1|].
    split.
    { rewrite Hl1. unfold flow, FormCtl.finalApprovalFlow.
      now rewrite length_imap, length_fmap. }
    split; [exact Hby|]. split; [exact Hhist1|]. split; [reflexivity|].
    split; [simpl; now rewrite Hlvl|].
    repeat constructor.
  - (* a further level exists *)
    assert (Hk1 : approvers !! S k = Some b).
    { rewrite <- (Nat.add_1_r k), <- lookup_drop, Hdrop. reflexivity. }
    assert (Hnext : findLevel flow (Js.increment (currentLevel sub))
                    = Some (mkFlowEntry (Z.of_nat (S k) + 1) (Some b))).
    { rewrite Hinc.
      replace (currentLevel sub + 1) with (Z.of_nat (S k) + 1) by lia.
      apply findLevel_finalApprovalFlow.
      rewrite list_lookup_fmap, Hk1. reflexivity. }
    destruct (applyAction_advance (c_clock c) flow a s (b_comments (c_body c))
                (b_data (c_body c)) sub _ Hnr Hnext) as (_ & Hl1 & _).
    fold sub1 in Hl1.
    destruct (applyAction_template (c_clock c) flow a s
                (b_comments (c_body c)) (b_data (c_body c)) sub) as [Ht Hm].
    fold sub1 in Ht, Hm.
    destruct (IH calls' (S k)
                (mkStore (<[submissionId (c_body c) := sub1]> (submissions st))
                         (forms st) (formTemplates st) (users st)) sub1)
      as (subF & es & HF & HstF & HlF & HbyF & HhF & Hap & Hlv & Hall).
    + discriminate.
    + rewrite (drop_S _ a k) in Hdrop by exact Hk.
      now injection Hdrop.
    + rewrite Hid. apply lookup_insert_eq.
    + rewrite (populateTemplate_after_action st _ sub sub1 Ht Hm). exact Hflow.
    + exact Husers.
    + rewrite Hl1, Hinc, Hlvl. lia.
    + exact Hd1.
    + rewrite Hhist1, historyValid_app, Hh. reflexivity.
    + exact Hrest.
    + exists subF,
        (mkHistoryEntry (currentLevel sub) a "APPROVED"
           (b_comments (c_body c)) (c_clock c 0%nat) :: es).
      split; [exact HF|]. split; [exact HstF|]. split; [exact HlF|].
      split; [exact HbyF|].
      split; [rewrite HhF, Hhist1, <- app_assoc; reflexivity|].
      split; [simpl; now rewrite Hap|].
      split; [simpl; rewrite Hlv, Hlvl; reflexivity|].
      constructor; [reflexivity | exact Hall].
Qed.

(** X3. On a flow written for the approvers a1, ..., aN (N > 0 and below
    2^53, all of them users), a submission stored with a payload at level
    1 that receives the approvals of a1, ..., aN in this order, none of
    which replaces the payload by an empty object, and nothing else, ends
    APPROVED at level N + 1, approved by aN, with exactly N new history
    entries: entry i is the APPROVED entry of approver ai at level i. *)
Theorem approvals_in_order_reach_approved
    (st : Store) (id : ObjectId) (sub : Submission)
    (approvers : list ObjectId) (calls : list Call) :
  approvers <> [] ->
  Z.of_nat (length approvers) < 2 ^ 53 ->
  submissions st !! id = Some sub ->
  flowOf (populateTemplate st sub)
  = FormCtl.finalApprovalFlow (Some <$> approvers) ->
  (forall a, a ∈ approvers -> is_Some (users st !! a)) ->
  currentLevel sub = 1 ->
  data sub <> [] ->
  historyValid (approvalHistory sub) = true ->
  Forall2 (fun a c =>
             c_user c = a /\ submissionId (c_body c) = id
             /\ b_data (c_body c) <> Some []
             /\ exists s, b_status (c_body c) = Some s
                          /\ Js.toUpperCase s = "APPROVED")
          approvers calls ->
  exists subF es,
    submissions (final st calls) !! id = Some subF
    /\ status subF = "APPROVED"
    /\ currentLevel subF = Z.of_nat (length approvers) + 1
    /\ approvedBy subF = last approvers
    /\ approvalHistory subF = approvalHistory sub ++ es
    /\ map h_approverId es = approvers
    /\ map h_level es
       = map (fun i => Z.of_nat i + 1) (seq 0 (length approvers))
    /\ Forall (fun e => h_status e = "APPROVED") es.
Proof.
  intros Hne Hbig Hsub Hflow Husers Hlvl Hd Hh Hcalls.
  apply (approvals_from_level id approvers approvers Hbig calls 0 st sub);
    try assumption; reflexivity.
Qed.

End FullRun.

(** ** The order of the history *)

Section HistoryOrder.

Import Approval Lifetime.

Lemma history_levels_from_bounded_level
    (id : ObjectId) (flow : Flow) (calls : list Call) :
  forall (st : Store) (sub : Submission),
  submissions st !! id = Some sub ->
  flowOf (populateTemplate st sub) = flow ->
  contiguous flow ->
  currentLevel sub <= Z.of_nat (length flow) + 1 ->
  exists subF es,
    submissions (final st calls) !! id = Some subF
    /\ approvalHistory subF = approvalHistory sub ++ es
    /\ Forall (fun e => currentLevel sub <= h_level e) es
    /\ StronglySorted Z.le (map h_level es).
Proof.
  induction calls as [|c r IH]; intros st sub Hsub Hflow Hc Hle.
  - exists sub, []. simpl. rewrite app_nil_r.
    repeat split; try assumption; constructor.
  - destruct (perform_orderly st id sub flow c Hsub Hflow Hc Hle)
      as [Hstep (sub1 & Hsub1 & Hflow1 & Hle1)].
    destruct (IH _ sub1 Hsub1 Hflow1 Hc Hle1)
      as (subF & es & HF & HhF & Hlow & Hsorted).
    cbn [final fold_left]. fold (final (perform st c).2 r).
    destruct Hstep as (subA & subB & HA & HB & Hmono & Hact).
    cbn [fst snd] in HA, HB. rewrite Hsub in HA. injection HA as <-.
    rewrite Hsub1 in HB. injection HB as <-.
    assert (Hlow' : Forall (fun e => currentLevel sub <= h_level e) es).
    { eapply Forall_impl; [exact Hlow|]. simpl. intros; lia. }
    destruct (actioned id (st, c, (perform st c).1, (perform st c).2)).
    + destruct Hact as (e & He & Hel). exists subF, (e :: es).
      split; [exact HF|].
      split; [rewrite HhF, He, <- app_assoc; reflexivity|].
      split; [constructor; [lia | exact Hlow']|].
      simpl. constructor; [exact Hsorted|].
      apply Forall_fmap. eapply Forall_impl; [exact Hlow'|].
      simpl. intros; lia.
    + subst sub1. exists subF, es. repeat split; assumption.
Qed.

(** X8. Over the lifetime of a submission, from its creation through any
    sequence of [processApproval] calls on a contiguous flow, the levels
    recorded in its history never decrease from one entry to the next. *)
Theorem history_levels_never_decrease
    (clock0 : nat -> Time) (id : ObjectId) (uploads : list (string * string))
    (st0 : Store) (user : SubmissionCtl.AuthUser)
    (fill : SubmissionCtl.CreateBody) (msg : string) (sub : Submission)
    (st : Store) (calls : list Call) :
  SubmissionCtl.createSubmission clock0 id uploads st0 user fill
  = (Created201 msg sub, st) ->
  contiguous (flowOf (populateTemplate st sub)) ->
  exists subF,
    submissions (final st calls) !! id = Some subF
    /\ StronglySorted Z.le (map h_level (approvalHistory subF)).
Proof.
  intros Hcreate Hc.
  destruct (createSubmission_created _ _ _ _ _ _ _ _ _ Hcreate)
    as (Hsub & Hh & Hlvl).
  destruct (history_levels_from_bounded_level id _ calls st sub Hsub eq_refl
              Hc ltac:(lia)) as (subF & es & HF & HhF & _ & Hsorted).
  exists subF. split; [exact HF|].
  rewrite HhF, Hh. exact Hsorted.
Qed.

End HistoryOrder.

(** ** Bounds of the analytics *)

Section AnalyticsBounds.

Import SubmissionCtl.

Lemma filter_length_le {A} (f : A -> bool) (l : list A) :
  (length (List.filter f l) <= length l)%nat.
Proof. induction l as [|x l IH]; simpl; [lia|]. destruct (f x); simpl; lia. Qed.

Lemma disjoint_filters_length {A} (f g h : A -> bool) (l : list A) :
  (forall x, f x = true -> g x = false /\ h x = false) ->
  (forall x, g x = true -> h x = false) ->
  (length (List.filter f l) + length (List.filter g l)
   + length (List.filter h l) <= length l)%nat.
Proof.
  intros Hf Hg. induction l as [|x l IH]; simpl; [lia|].
  destruct (f x) eqn:Hfx.
  - destruct (Hf x Hfx) as [-> ->]. simpl. lia.
  - destruct (g x) eqn:Hgx.
    + rewrite (Hg x Hgx). simpl. lia.
    + destruct (h x); simpl; lia.
Qed.

(** X9. Whatever the submissions and the flow, the analytics are
    coherent: approved, pending and rejected submissions are counted at
    most once each, so their sum does not exceed the total; there is one
    level statistic per level of the flow, each counting at most all the
    submissions; and the completion rate lies between 0 and 100. *)
Theorem analytics_are_bounded (subs : list Submission) (wf : Flow) :
  (a_approved (analyticsOf subs wf) + a_pending (analyticsOf subs wf)
   + a_rejected (analyticsOf subs wf) <= a_total (analyticsOf subs wf))%nat
  /\ length (a_levelStats (analyticsOf subs wf)) = length wf
  /\ Forall (fun ls => (ls_approved ls <= ls_total ls)%nat
                       /\ ls_total ls = length subs)
            (a_levelStats (analyticsOf subs wf))
  /\ 0 <= a_completionRate (analyticsOf subs wf) <= 100.
Proof.
  unfold analyticsOf.
  cbn [a_approved a_pending a_rejected a_total a_levelStats a_completionRate].
  split; [|split; [|split]].
  - apply disjoint_filters_length.
    + intros x Hx. apply bool_decide_eq_true in Hx. rewrite Hx.
      split; reflexivity.
    + intros x Hx. apply bool_decide_eq_true in Hx.
      apply bool_decide_eq_false. intros Hr. rewrite Hr in Hx.
      rewrite !elem_of_cons, elem_of_nil in Hx.
      destruct Hx as [Hx | [Hx | []]]; discriminate.
  - unfold levelStatsOf. now rewrite length_map, length_seq.
  - unfold levelStatsOf. apply Forall_fmap, Forall_forall.
    intros i _. simpl. split; [apply filter_length_le | reflexivity].
  - destruct subs as [|x subs']; [simpl; lia|].
    set (subs := x :: subs').
    replace (0 <? length subs)%nat with true by reflexivity.
    set (approved := length (List.filter _ subs)).
    assert (Ha : (approved <= length subs)%nat) by apply filter_length_le.
    assert (Ht : 0 < Z.of_nat (length subs)) by (simpl; lia).
    rewrite Math_round_percentage by exact Ht.
    split.
    + apply Z.div_pos; lia.
    + assert ((200 * Z.of_nat approved + Z.of_nat (length subs))
              / (2 * Z.of_nat (length subs)) < 101)
        by (apply Z.div_lt_upper_bound; lia).
      lia.
Qed.

End AnalyticsBounds.

(** ** The work list against the gate *)

Section WorkList.

Import Approval Assigned.

Lemma contiguous_lookup_level (flow : Flow) (i : nat) (e : FlowEntry) :
  contiguous flow -> flow !! i = Some e -> level e = Z.of_nat i + 1.
Proof.
  intros Hc Hi.
  assert (Hl : map level flow !! i = Some (level e))
    by (rewrite list_lookup_fmap, Hi; reflexivity).
  rewrite Hc, list_lookup_fmap in Hl.
  rewrite lookup_seq_lt in Hl by (apply lookup_lt_Some in Hi; lia).
  simpl in Hl. injection Hl as <-. reflexivity.
Qed.

(** In a contiguous flow a level names one entry. *)
Lemma contiguous_level_inj (flow : Flow) (e e' : FlowEntry) :
  contiguous flow -> e ∈ flow -> e' ∈ flow -> level e = level e' -> e = e'.
Proof.
  intros Hc Hin Hin' Hl.
  apply list_elem_of_lookup in Hin as [i Hi].
  apply list_elem_of_lookup in Hin' as [j Hj].
  pose proof (contiguous_lookup_level flow i e Hc Hi).
  pose proof (contiguous_lookup_level flow j e' Hc Hj).
  assert (i = j) by lia. subst j. congruence.
Qed.

Lemma userLevelEntry_Some st uid flow e :
  userLevelEntry st uid flow = Some e ->
  e ∈ flow /\ approverIdString st e = Some uid.
Proof.
  unfold userLevelEntry. intros H. apply find_some in H as [Hin Hb].
  split; [now apply list_elem_of_In | now apply bool_decide_eq_true in Hb].
Qed.

(** X10. The work list never promises more than the gate grants: when
    [getAssignedSubmissions] marks a submission with [isMyTurn], on a
    contiguous flow, the action the user then sends with a status of the
    history enumeration, on a document written with a payload (the stored
    one, or the one sent with the call, not empty), is accepted by
    [processApproval]. *)
Theorem my_turn_means_the_action_is_accepted
    (clock : nat -> Time) (st : Store) (uid : ObjectId) (body : Body)
    (sub : Submission) (s : string) :
  submissions st !! submissionId body = Some sub ->
  contiguous (flowOf (populateTemplate st sub)) ->
  isMyTurn (enhance st uid sub) = true ->
  b_status body = Some s ->
  Js.toUpperCase s ∈ historyStatusEnum ->
  carriesPayload (b_data body) sub ->
  historyValid (approvalHistory sub) = true ->
  exists msg sub' st',
    processApproval clock st uid body = (Ok200 msg sub', st')
    /\ submissions st' !! submissionId body = Some sub'.
Proof.
  intros Hsub Hc Hturn Hs Hin Hp Hh.
  assert (Hauth : authorized st (flowOf (populateTemplate st sub)) sub uid).
  { unfold enhance in Hturn.
    destruct (flowOf (populateTemplate st sub)) as [|x r] eqn:Hflow;
      [now left|].
    simpl length in Hturn. simpl Nat.eqb in Hturn. cbn [isMyTurn] in Hturn.
    apply bool_decide_eq_true in Hturn.
    destruct (userLevelEntry st uid (x :: r)) as [e|] eqn:He;
      [|discriminate].
    simpl in Hturn. injection Hturn as Hlvl.
    apply userLevelEntry_Some in He as [Hin_e Hbound].
    destruct (findLevel (x :: r) (currentLevel sub)) as [e'|] eqn:Hf.
    - apply findLevel_Some in Hf as Hf'. destruct Hf' as [Hin' Hl'].
      assert (e = e')
        by (apply (contiguous_level_inj (x :: r)); try assumption; lia).
      subst e'. right. eauto.
    - exfalso. apply findLevel_None in Hf. apply Hf. exists e. split; [assumption | lia]. }
  assert (He : inEnum historyStatusEnum (Js.toUpperCase s) = true)
    by (unfold inEnum; now apply bool_decide_eq_true).
  pose proof (processApproval_accepted clock st uid body sub _ s
                Hsub eq_refl Hauth Hs Hp Hh He) as Hrun. cbv zeta in Hrun.
  eexists _, _, _. split; [exact Hrun | apply lookup_insert_eq].
Qed.

(** X11. The converse fails for a user bound to several levels: the work
    list takes the first level bound to the user as the user's level, so
    at a later level of theirs it reports [isMyTurn = false] and names no
    pending approver, although the gate lets the user act. *)
Theorem later_level_of_the_same_user_is_not_my_turn
    (st : Store) (uid : ObjectId) (sub : Submission) (e1 e2 : FlowEntry) :
  userLevelEntry st uid (flowOf (populateTemplate st sub)) = Some e1 ->
  findLevel (flowOf (populateTemplate st sub)) (currentLevel sub) = Some e2 ->
  approverIdString st e2 = Some uid ->
  level e1 < currentLevel sub ->
  isMyTurn (enhance st uid sub) = false
  /\ userLevel (enhance st uid sub) = Some (level e1)
  /\ pendingApproverName (enhance st uid sub) = None
  /\ checkApprover st (flowOf (populateTemplate st sub)) sub uid = None.
Proof.
  intros H1 H2 Hb Hlt.
  assert (Hauth : authorized st (flowOf (populateTemplate st sub)) sub uid)
    by (right; eauto).
  unfold enhance.
  destruct (flowOf (populateTemplate st sub)) as [|x r] eqn:Hflow;
    [discriminate|].
  simpl length. simpl Nat.eqb. rewrite H1. cbn [option_map isMyTurn userLevel
    pendingApproverName].
  assert (Hne : bool_decide (Some (currentLevel sub) = Some (level e1)) = false).
  { apply bool_decide_eq_false. intros Heq. injection Heq as Heq. lia. }
  rewrite Hne. split; [reflexivity|]. split; [reflexivity|]. split.
  - replace (currentLevel sub <? level e1) with false
      by (symmetry; apply Z.ltb_ge; lia).
    now rewrite andb_false_r.
  - now apply checkApprover_authorized.
Qed.

End WorkList.

(** ** The dashboard counts *)

Section Dashboard.

Import Approval Assigned.

Lemma countPending_None (flags : list (option bool)) :
  None ∈ flags -> countPending flags = None.
Proof.
  induction flags as [|f r IH]; intros Hin; [now apply elem_of_nil in Hin|].
  apply elem_of_cons in Hin. destruct f as [b|]; [|reflexivity].
  destruct Hin as [Hin | Hin]; [discriminate|].
  simpl. now rewrite (IH Hin).
Qed.

Lemma rawUserLevel_missing_approver (uid : ObjectId) (pre post : Flow)
    (lvl : Z) :
  Forall (fun f => exists a, approverId f = Some a /\ a <> uid) pre ->
  rawUserLevel uid (pre ++ mkFlowEntry lvl None :: post) = None.
Proof.
  induction 1 as [|f pre (a & Ha & Hne) _ IH]; simpl; [reflexivity|].
  rewrite Ha. now rewrite bool_decide_eq_false_2.
Qed.

Lemma stored_submission_is_listed (st : Store) (id : ObjectId)
    (sub : Submission) :
  submissions st !! id = Some sub ->
  sub ∈ map snd (map_to_list (submissions st)).
Proof.
  intros Hsub. apply list_elem_of_fmap. exists (id, sub).
  split; [reflexivity | now apply elem_of_map_to_list].
Qed.

(** X12. [getEmployeeStats] fails as a whole (500) as soon as one
    in-progress submission of a form of the user has a flow in which an
    entry without approver comes before the user's own entry: the search
    for the user's level calls [toString] on the missing approver. *)
Theorem dashboard_fails_on_a_level_without_approver
    (st : Store) (uid : ObjectId) (id : ObjectId) (sub : Submission)
    (f : Template) (pre post : Flow) (lvl : Z) :
  submissions st !! id = Some sub ->
  forms st !! templateId sub = Some f ->
  hasApprover uid f = true ->
  status sub ∈ inProgress ->
  flowOf (populateTemplate st sub) = pre ++ mkFlowEntry lvl None :: post ->
  Forall (fun e => exists a, approverId e = Some a /\ a <> uid) pre ->
  getEmployeeStats st uid = None.
Proof.
  intros Hsub Hform Has Hst Hflow Hpre. unfold getEmployeeStats.
  rewrite countPending_None; [reflexivity|].
  apply list_elem_of_fmap. exists sub. split.
  - unfold pendingFor.
    now rewrite Hflow, (rawUserLevel_missing_approver uid pre post lvl Hpre).
  - apply list_elem_of_In, filter_In. split.
    + apply list_elem_of_In. eapply stored_submission_is_listed; eauto.
    + rewrite Hform, Has. simpl. now apply bool_decide_eq_true.
Qed.

Lemma filter_length_Permutation {A} (f : A -> bool) (l l' : list A) :
  l ≡ₚ l' -> length (List.filter f l) = length (List.filter f l').
Proof.
  induction 1 as [|x l l' _ IH|x y l|l l' l'' _ IH1 _ IH2]; simpl.
  - reflexivity.
  - destruct (f x); simpl; lia.
  - destruct (f x), (f y); reflexivity.
  - lia.
Qed.

(** The count of a filter after one document is replaced. *)
Lemma count_after_replace (g : Submission -> bool)
    (m : gmap string Submission) (id : ObjectId) (old new : Submission) :
  m !! id = Some old ->
  (length (List.filter g (map snd (map_to_list (<[id := new]> m))))
   + (if g old then 1 else 0)
   = length (List.filter g (map snd (map_to_list m)))
     + (if g new then 1 else 0))%nat.
Proof.
  intros Hold.
  assert (H1 : map snd (map_to_list (<[id := new]> m))
               ≡ₚ new :: map snd (map_to_list (delete id m))).
  { rewrite <- insert_delete_eq.
    rewrite map_to_list_insert by apply lookup_delete_eq. reflexivity. }
  assert (H2 : map snd (map_to_list m)
               ≡ₚ old :: map snd (map_to_list (delete id m))).
  { rewrite <- (insert_delete_id m id old Hold) at 1.
    rewrite map_to_list_insert by apply lookup_delete_eq. reflexivity. }
  rewrite (filter_length_Permutation g _ _ H1),
          (filter_length_Permutation g _ _ H2).
  simpl. destruct (g old), (g new); simpl; lia.
Qed.

Lemma actionedBy_app uid sub sub' e :
  approvalHistory sub' = approvalHistory sub ++ [e] ->
  actionedBy uid sub'
  = actionedBy uid sub || bool_decide (h_approverId e = uid).
Proof.
  intros Hh. unfold actionedBy. rewrite Hh, existsb_app. simpl.
  now rewrite orb_false_r.
Qed.

(** X13. An accepted action shows on the actor's dashboard: after
    [processApproval] has accepted an action of a user, the submission
    counts among those the user has actioned, and the user's
    [actionedCount] is the previous one, plus one if this is the user's
    first action on that submission. *)
Theorem accepted_action_is_counted
    (clock : nat -> Time) (st st' : Store) (uid : ObjectId) (body : Body)
    (sub sub' : Submission) (msg : string) (p p' n n' : nat) :
  submissions st !! submissionId body = Some sub ->
  processApproval clock st uid body = (Ok200 msg sub', st') ->
  getEmployeeStats st uid = Some (p, n) ->
  getEmployeeStats st' uid = Some (p', n') ->
  actionedBy uid sub' = true
  /\ n' = (n + (if actionedBy uid sub then 0 else 1))%nat.
Proof.
  intros Hsub Hrun Hbefore Hafter.
  destruct (processApproval_store clock st uid body)
    as [[_ Hno] | (sub0 & s & Hsub0 & _ & Hrun')].
  { exfalso. rewrite Hrun in Hno. eapply Hno. reflexivity. }
  rewrite Hsub in Hsub0. injection Hsub0 as <-.
  rewrite Hrun in Hrun'. injection Hrun' as _ Hsub' Hst'.
  assert (Hact : actionedBy uid sub'
                 = actionedBy uid sub || true).
  { rewrite (actionedBy_app uid sub sub' _
               ltac:(rewrite Hsub'; apply applyAction_history)).
    simpl. now rewrite bool_decide_eq_true_2. }
  rewrite orb_true_r in Hact. split; [exact Hact|].
  unfold getEmployeeStats in Hbefore, Hafter.
  destruct (countPending _) in Hbefore; [|discriminate].
  destruct (countPending _) in Hafter; [|discriminate].
  injection Hbefore as _ <-. injection Hafter as _ <-.
  pose proof (count_after_replace (actionedBy uid) (submissions st)
                (submissionId body) sub sub' Hsub) as Hcount.
  rewrite Hact in Hcount. rewrite Hst'. cbn [submissions].
  rewrite <- Hsub'. destruct (actionedBy uid sub); lia.
Qed.

End Dashboard.

(** ** The listing *)

Section ListingProperties.

Import Approval SubmissionCtl Listing.

Lemma meets_Some {A} `{EqDecision A} (w v : A) :
  meets (Some w) v = true -> v = w.
Proof. unfold meets. now intros H%bool_decide_eq_true. Qed.

Lemma matches_fields (f : Filter) (s : Submission) :
  matches f s = true ->
  meets (f_plantId f) (plantId s) = true
  /\ meets (f_companyId f) (companyId s) = true
  /\ meets (f_submittedBy f) (submittedBy s) = true.
Proof.
  unfold matches. rewrite !andb_true_iff. tauto.
Qed.

(** X14. The filter of [getSubmissions] confines what each role lists,
    whatever the query says: a plant administrator gets submissions of
    their own plant only and a company administrator those of their own
    company only; an employee gets their own submissions, unless the
    query carries [submittedBy], which replaces the restriction: then
    the employee gets the submissions of that user. *)
Theorem listing_is_confined_by_role
    (user : AuthUser) (q : Query) (s : Submission) :
  matches (buildFilter user q) s = true ->
  (role user = "PLANT_ADMIN" -> plantId s = au_plantId user)
  /\ (role user = "COMPANY_ADMIN" -> companyId s = au_companyId user)
  /\ (role user = "EMPLOYEE" -> given (q_submittedBy q) = None ->
      submittedBy s = Some (userId user))
  /\ (forall v, given (q_submittedBy q) = Some v -> submittedBy s = Some v).
Proof.
  intros Hm. apply matches_fields in Hm as (Hp & Hc & Hs).
  unfold buildFilter in Hp, Hc, Hs. cbn [f_plantId f_companyId f_submittedBy]
    in Hp, Hc, Hs.
  split; [|split; [|split]].
  - intros Hr. rewrite Hr in Hp. simpl in Hp. now apply meets_Some in Hp.
  - intros Hr. rewrite Hr in Hc. simpl in Hc. now apply meets_Some in Hc.
  - intros Hr Hq. rewrite Hr, Hq in Hs. simpl in Hs.
    now apply meets_Some in Hs.
  - intros v Hq. rewrite Hq in Hs. now apply meets_Some in Hs.
Qed.

(** X15. After [processApproval] has accepted an action, the listing
    shows it as the last action of the submission, be it an approval or
    a rejection: [lastActionAt] is the time of the action and
    [lastApprovedBy] the name of the actor. *)
Theorem accepted_action_is_the_last_one_listed
    (clock : nat -> Time) (st st' : Store) (uid : ObjectId) (body : Body)
    (sub' : Submission) (msg : string) (u : User) :
  processApproval clock st uid body = (Ok200 msg sub', st') ->
  users st !! uid = Some u ->
  u_name u <> "" ->
  lastActionAt sub' = Some (clock 0%nat)
  /\ lastApprovedBy st' sub' = Some (u_name u).
Proof.
  intros Hrun Hu Hname.
  destruct (processApproval_store clock st uid body)
    as [[_ Hno] | (sub & s & Hsub & _ & Hrun')].
  { exfalso. rewrite Hrun in Hno. eapply Hno. reflexivity. }
  rewrite Hrun in Hrun'. injection Hrun' as _ Hsub' Hst'.
  assert (Hlast : lastApproval sub'
                  = Some (mkHistoryEntry (currentLevel sub) uid
                            (Js.toUpperCase s) (b_comments body)
                            (clock 0%nat))).
  { unfold lastApproval. rewrite Hsub', applyAction_history.
    apply last_snoc. }
  unfold lastActionAt, lastApprovedBy. rewrite Hlast. simpl.
  split; [reflexivity|].
  rewrite Hst'. cbn [users]. rewrite Hu.
  now rewrite bool_decide_eq_false_2.
Qed.

End ListingProperties.

(** ** The numerical id *)

Section NumericalId.

Import Hook.

Lemma topNumericalId_bounds (ids : list (option Z)) :
  match topNumericalId ids with
  | Some t => Some t ∈ ids /\ forall m, Some m ∈ ids -> m <= t
  | None => forall m, Some m ∉ ids
  end.
Proof.
  induction ids as [|o r IH]; simpl.
  - intros m Hm. now apply elem_of_nil in Hm.
  - destruct o as [a|], (topNumericalId r) as [b|].
    + destruct IH as [Hin Hmax]. split.
      * destruct (Z.max_spec a b) as [[_ ->] | [_ ->]];
          [now right | now left].
      * intros m Hm. apply elem_of_cons in Hm as [Hm | Hm].
        -- injection Hm as ->. lia.
        -- specialize (Hmax m Hm). lia.
    + split; [now left|].
      intros m Hm. apply elem_of_cons in Hm as [Hm | Hm].
      * injection Hm as ->. lia.
      * now apply IH in Hm.
    + destruct IH as [Hin Hmax]. split; [now right|].
      intros m Hm. apply elem_of_cons in Hm as [Hm | Hm];
        [discriminate | now apply Hmax].
    + intros m Hm. apply elem_of_cons in Hm as [Hm | Hm];
        [discriminate | now apply IH in Hm].
Qed.

(** X16. When the numerical ids stored are safe integers (below 2^53 in
    magnitude), the id that the [pre('save')] hook gives a new submission
    without numerical id is greater than every numerical id stored, hence
    differs from all of them; it is 1 when no stored document has one. A
    document that is not new, or that brings a non-zero id, keeps what it
    has. *)
Theorem numerical_id_is_fresh (own : option Z) (isNew : bool)
    (ids : list (option Z)) :
  (own = None \/ own = Some 0 -> isNew = true ->
   (forall m, Some m ∈ ids -> Js.isSafeInteger m = true) ->
   exists n, preSave own isNew ids = Some n
             /\ (forall m, Some m ∈ ids -> m < n)
             /\ (Some n ∉ ids)
             /\ ((forall m, Some m ∉ ids) -> n = 1))
  /\ (isNew = false -> preSave own isNew ids = own)
  /\ (forall n, own = Some n -> n <> 0 -> preSave own isNew ids = own).
Proof.
  split; [|split].
  - intros Hown -> Hsafe. exists (nextNumericalId ids).
    assert (Hfresh : forall m, Some m ∈ ids -> m < nextNumericalId ids).
    { intros m Hm. unfold nextNumericalId.
      pose proof (topNumericalId_bounds ids) as Hb.
      destruct (topNumericalId ids) as [t|].
      - destruct Hb as [Hin Hmax]. specialize (Hmax m Hm).
        rewrite (increment_safe t (Hsafe t Hin)).
        destruct (Z.eqb_spec t 0); lia.
      - now apply Hb in Hm. }
    split; [destruct Hown as [-> | ->]; reflexivity|].
    split; [exact Hfresh|]. split.
    + intros Hin. apply Hfresh in Hin. lia.
    + intros Hnone. unfold nextNumericalId.
      pose proof (topNumericalId_bounds ids) as Hb.
      destruct (topNumericalId ids) as [t|]; [|reflexivity].
      destruct Hb as [Hin _]. now apply Hnone in Hin.
  - intros ->. unfold preSave. now rewrite andb_false_r.
  - intros n -> Hn. unfold preSave.
    now replace (n =? 0) with false by (symmetry; now apply Z.eqb_neq).
Qed.

End NumericalId.

(** ** Whose turn it is, with distinct approvers *)

Section Turns.

Import Approval Assigned.

Lemma userLevelEntry_imap st (b : ObjectId) (approvers : list ObjectId)
    (k i : nat) :
  NoDup approvers ->
  approvers !! i = Some b ->
  is_Some (users st !! b) ->
  userLevelEntry st b
    (imap (fun j x => mkFlowEntry (Z.of_nat (k + j) + 1) x)
          (Some <$> approvers))
  = Some (mkFlowEntry (Z.of_nat (k + i) + 1) (Some b)).
Proof.
  intros Hnd Hi Hu. revert k i Hi.
  induction Hnd as [|a approvers Hnotin Hnd IH]; intros k i Hi;
    [discriminate|].
  destruct i as [|i]; simpl in Hi.
  - injection Hi as ->. unfold userLevelEntry. simpl.
    rewrite (approverIdString_known st b _ Hu).
    now rewrite bool_decide_eq_true_2.
  - assert (Hne : a <> b).
    { intros ->. apply Hnotin. apply list_elem_of_lookup. eauto. }
    unfold userLevelEntry. simpl.
    rewrite bool_decide_eq_false_2.
    + specialize (IH (S k) i Hi). unfold userLevelEntry in IH.
      replace (Z.of_nat (k + S i) + 1) with (Z.of_nat (S k + i) + 1) by lia.
      rewrite <- IH. f_equal. apply imap_ext. intros j y _. simpl.
      do 2 f_equal. lia.
    + unfold approverIdString. simpl.
      destruct (users st !! a); congruence.
Qed.

(** X17. On a flow written for distinct approvers who are all users, the
    work list gives the turn to exactly one of them: the approver of
    position [i] (level [i + 1]) sees [isMyTurn] if and only if the
    submission is at level [i + 1]. *)
Theorem turn_belongs_to_the_approver_of_the_current_level
    (st : Store) (sub : Submission) (approvers : list ObjectId)
    (i : nat) (b : ObjectId) :
  flowOf (populateTemplate st sub)
  = FormCtl.finalApprovalFlow (Some <$> approvers) ->
  NoDup approvers ->
  (forall a, a ∈ approvers -> is_Some (users st !! a)) ->
  approvers !! i = Some b ->
  (isMyTurn (enhance st b sub) = true <-> currentLevel sub = Z.of_nat i + 1)
  /\ userLevel (enhance st b sub) = Some (Z.of_nat i + 1).
Proof.
  intros Hflow Hnd Husers Hi.
  assert (Hb : is_Some (users st !! b))
    by (apply Husers, list_elem_of_lookup; eauto).
  pose proof (userLevelEntry_imap st b approvers 0 i Hnd Hi Hb) as Hentry.
  unfold enhance. rewrite Hflow.
  unfold FormCtl.finalApprovalFlow at 1. rewrite length_imap, length_fmap.
  destruct approvers as [|a0 rest] eqn:Ha; [discriminate|].
  simpl length. simpl Nat.eqb. rewrite <- Ha in *.
  unfold FormCtl.finalApprovalFlow. simpl in Hentry. rewrite Hentry.
  cbn [option_map level isMyTurn userLevel]. split; [|reflexivity].
  rewrite bool_decide_eq_true. split; intros H; congruence.
Qed.

End Turns.

(** ** updateStatus and the gate *)

Section StatusAndGate.

Import Approval SubmissionCtl.

(** X18. [updateStatus] never moves a submission along its flow: after
    the call, whatever its outcome, the submission is at the level it
    was, bound to the template it was, and the gate of [processApproval]
    answers every user exactly as before. *)
Theorem updateStatus_leaves_the_gate_as_it_was
    (clock : nat -> Time) (st : Store) (user : AuthUser) (id : ObjectId)
    (body : StatusBody) (sub : Submission) :
  submissions st !! id = Some sub ->
  exists sub',
    submissions (updateStatus clock st user id body).2 !! id = Some sub'
    /\ currentLevel sub' = currentLevel sub
    /\ flowOf (populateTemplate (updateStatus clock st user id body).2 sub')
       = flowOf (populateTemplate st sub)
    /\ forall uid,
         checkApprover (updateStatus clock st user id body).2
           (flowOf (populateTemplate (updateStatus clock st user id body).2
                      sub')) sub' uid
         = checkApprover st (flowOf (populateTemplate st sub)) sub uid.
Proof.
  intros Hsub. unfold updateStatus.
  destruct (s_status body) as [s|];
    [|exists sub; repeat split; assumption].
  rewrite Hsub. unfold save.
  match goal with
  | |- context [hasPayload ?a && validate ?x] =>
      destruct (hasPayload a && validate x)
  end; [|exists sub; repeat split; assumption].
  eexists. cbn [snd submissions]. split; [apply lookup_insert_eq|].
  repeat case_bool_decide; cbn; repeat split; reflexivity.
Qed.

End StatusAndGate.

(** ** From creation to approval *)

Section CreationToApproval.

Import Approval Lifetime.

Lemma createSubmission_level clock newId uploads st0 user body msg sub st :
  SubmissionCtl.createSubmission clock newId uploads st0 user body
  = (Created201 msg sub, st) ->
  forms st = forms st0 /\ formTemplates st = formTemplates st0
  /\ users st = users st0
  /\ currentLevel sub
     = if bool_decide (status sub = "PENDING_APPROVAL") then 1 else 0.
Proof.
  intros Hrun. unfold SubmissionCtl.createSubmission in Hrun.
  destruct (SubmissionCtl.c_data body); try discriminate;
    destruct (formTemplates st0 !! _); try destruct (forms st0 !! _);
    try discriminate; unfold save in Hrun;
    match type of Hrun with context [validate ?x] => destruct (validate x) end;
    try discriminate; injection Hrun as _ <- <-;
    repeat split; reflexivity.
Qed.

(** X19. A submission that [createSubmission] has stored as
    PENDING_APPROVAL, with a payload that is not empty, on a flow written
    for the approvers a1, ..., aN (N below 2^53, all of them users) and
    that then receives their approvals in this order, none of which
    replaces the payload by an empty object, ends APPROVED at level
    N + 1, approved by aN, and its history is exactly the N APPROVED
    entries of a1, ..., aN at the levels 1, ..., N. *)
Theorem created_submission_is_approved_after_all_levels
    (clock0 : nat -> Time) (id : ObjectId) (uploads : list (string * string))
    (st0 : Store) (user : SubmissionCtl.AuthUser)
    (fill : SubmissionCtl.CreateBody) (msg : string) (sub : Submission)
    (st : Store) (approvers : list ObjectId) (calls : list Call) :
  SubmissionCtl.createSubmission clock0 id uploads st0 user fill
  = (Created201 msg sub, st) ->
  status sub = "PENDING_APPROVAL" ->
  data sub <> [] ->
  approvers <> [] ->
  Z.of_nat (length approvers) < 2 ^ 53 ->
  flowOf (populateTemplate st sub)
  = FormCtl.finalApprovalFlow (Some <$> approvers) ->
  (forall a, a ∈ approvers -> is_Some (users st0 !! a)) ->
  Forall2 (fun a c =>
             c_user c = a /\ submissionId (c_body c) = id
             /\ b_data (c_body c) <> Some []
             /\ exists s, b_status (c_body c) = Some s
                          /\ Js.toUpperCase s = "APPROVED")
          approvers calls ->
  exists subF,
    submissions (final st calls) !! id = Some subF
    /\ status subF = "APPROVED"
    /\ currentLevel subF = Z.of_nat (length approvers) + 1
    /\ approvedBy subF = last approvers
    /\ length (approvalHistory subF) = length approvers
    /\ map h_approverId (approvalHistory subF) = approvers
    /\ map h_level (approvalHistory subF)
       = map (fun i => Z.of_nat i + 1) (seq 0 (length approvers))
    /\ Forall (fun e => h_status e = "APPROVED") (approvalHistory subF).
Proof.
  intros Hcreate Hpending Hd Hne Hbig Hflow Husers Hcalls.
  destruct (createSubmission_created _ _ _ _ _ _ _ _ _ Hcreate)
    as (Hsub & Hh & _).
  destruct (createSubmission_level _ _ _ _ _ _ _ _ _ Hcreate)
    as (_ & _ & Hu & Hlvl).
  rewrite bool_decide_eq_true_2 in Hlvl by exact Hpending.
  destruct (approvals_from_level id approvers approvers Hbig calls 0 st sub)
    as (subF & es & HF & Hst & HlF & Hby & Hhist & Hap & Hlv & Hall);
    try assumption; try reflexivity.
  - intros a Ha. rewrite Hu. now apply Husers.
  - rewrite Hh. reflexivity.
  - exists subF. rewrite Hh in Hhist. simpl in Hhist. rewrite Hhist.
    repeat split; try assumption.
    rewrite <- Hap. now rewrite length_map.
Qed.

End CreationToApproval.

(** ** The further properties, on the installation of [Scenario] *)

Section FurtherOnScenario.

Import Approval SubmissionCtl Lifetime Assigned Listing Scenario.

(** A approves the first of two stored submissions. *)
Lemma other_submission_is_untouched :
  otherId <> subId
  /\ submissions (processApproval clock twoSubmissions userA (act "approved")).2
     !! otherId = Some pending2.
Proof.
  assert (Hne : otherId <> subId) by discriminate.
  destruct (processApproval_touches_one_submission clock twoSubmissions userA
              (act "approved")) as (_ & _ & _ & _ & Hother).
  split; [exact Hne|]. rewrite (Hother otherId Hne). reflexivity.
Defined.

(** A approves and sends an edited payload. *)
Lemma edited_payload_is_stored :
  exists sub',
    submissions (processApproval clock (store pending1) userA edit).2 !! subId
    = Some sub'
    /\ ((exists msg,
           (processApproval clock (store pending1) userA edit).1
           = Ok200 msg sub'
           /\ data sub' = [("qty", "12")])
        \/ ((forall msg doc,
               (processApproval clock (store pending1) userA edit).1
               <> Ok200 msg doc)
            /\ sub' = pending1)).
Proof.
  apply (payload_changes_only_with_an_accepted_edit clock (store pending1)
           userA edit pending1).
  reflexivity.
Defined.

Lemma scenario_store_is_valid (sub : Submission) :
  validate sub = true -> storeValid (store sub).
Proof.
  intros Hv id s Hs. unfold store in Hs. cbn [submissions] in Hs.
  apply lookup_singleton_Some in Hs as [_ <-]. exact Hv.
Defined.

(** The store with the submission that waits for A stays valid. *)
Lemma scenario_stays_valid :
  storeValid (processApproval clock (store pending1) (userId anyone)
                              (act "approved")).2
  /\ storeValid (updateStatus clock (store pending1) anyone subId
                              (mkStatusBody (Some "rejected") None)).2
  /\ storeValid (createSubmission clock subId [] (store pending1) anyone
                                  fill).2.
Proof.
  apply (writers_keep_the_store_valid clock (store pending1) anyone subId
           (act "approved") (mkStatusBody (Some "rejected") None) fill []).
  apply scenario_store_is_valid. reflexivity.
Defined.

(** The client sends the levels 7 and 7 for A and B. *)
Lemma renumbering_on_scenario :
  findLevel (FormCtl.finalApprovalFlow [Some userA; Some userB]) 2
  = Some (mkFlowEntry 2 (Some userB))
  /\ findLevel (FormCtl.finalApprovalFlow [Some userA; Some userB]) 3 = None.
Proof.
  destruct (stored_flow_is_renumbered_in_order [Some userA; Some userB])
    as (_ & _ & Hfind & Hpast).
  split.
  - exact (Hfind 1%nat (Some userB) eq_refl).
  - apply Hpast. simpl. lia.
Defined.

(** A, who is bound to nothing on the form without flow, rejects. *)
Lemma open_form_on_scenario :
  exists msg sub' st',
    processApproval clock (store openApproved) userA (act "rejected")
    = (Ok200 msg sub', st')
    /\ submissions st' !! subId = Some sub'.
Proof.
  destruct (without_flow_anyone_may_act clock (store openApproved) userA
              (act "rejected") openApproved "rejected")
    as (msg & sub' & st' & Hrun & Hsub & _).
  - reflexivity.
  - reflexivity.
  - reflexivity.
  - apply list_elem_of_In. simpl. tauto.
  - discriminate.
  - reflexivity.
  - exists msg, sub', st'. split; assumption.
Defined.

Lemma people_are_users (l : list ObjectId) :
  Forall (fun a => a = userA \/ a = userB \/ a = userC) l ->
  forall a, a ∈ l -> is_Some (people !! a).
Proof.
  intros Hl a Ha. rewrite Forall_forall in Hl.
  destruct (Hl a Ha) as [-> | [-> | ->]]; eexists; reflexivity.
Defined.

Lemma approvalsAB_are_approvals :
  Forall2 (fun a c =>
             c_user c = a /\ submissionId (c_body c) = subId
             /\ b_data (c_body c) <> Some []
             /\ exists s, b_status (c_body c) = Some s
                          /\ Js.toUpperCase s = "APPROVED")
          [userA; userB] approvalsAB.
Proof.
  constructor.
  { split; [reflexivity|]. split; [reflexivity|]. split; [discriminate|].
    eexists; split; reflexivity. }
  constructor.
  { split; [reflexivity|]. split; [reflexivity|]. split; [discriminate|].
    eexists; split; reflexivity. }
  constructor.
Defined.

(** A, then B, approve the submission that waits for A. *)
Lemma two_approvals_on_scenario :
  exists subF,
    submissions (final (store pending1) approvalsAB) !! subId = Some subF
    /\ status subF = "APPROVED"
    /\ currentLevel subF = 3
    /\ approvedBy subF = Some userB.
Proof.
  destruct (approvals_in_order_reach_approved (store pending1) subId pending1
              [userA; userB] approvalsAB)
    as (subF & es & HF & Hst & Hl & Hby & _).
  - discriminate.
  - reflexivity.
  - reflexivity.
  - reflexivity.
  - apply people_are_users. repeat constructor; tauto.
  - reflexivity.
  - discriminate.
  - reflexivity.
  - exact approvalsAB_are_approvals.
  - exists subF. repeat split; assumption.
Defined.

(** The history after the mixed lifetime of [calls]. *)
Lemma history_order_on_scenario :
  exists subF,
    submissions (final (store created) calls) !! subId = Some subF
    /\ StronglySorted Z.le (map h_level (approvalHistory subF)).
Proof.
  apply (history_levels_never_decrease clock subId [] fresh anyone fill
           "Submission created successfully" created (store created) calls).
  - reflexivity.
  - apply finalApprovalFlow_contiguous.
Defined.

(** It is the turn of A on the submission that waits for A. *)
Lemma my_turn_on_scenario :
  exists msg sub' st',
    processApproval clock (store pending1) userA (act "approved")
    = (Ok200 msg sub', st')
    /\ submissions st' !! subId = Some sub'.
Proof.
  apply (my_turn_means_the_action_is_accepted clock (store pending1) userA
           (act "approved") pending1 "approved").
  - reflexivity.
  - apply finalApprovalFlow_contiguous.
  - reflexivity.
  - reflexivity.
  - apply list_elem_of_In. simpl. tauto.
  - discriminate.
  - reflexivity.
Defined.

(** A holds the levels 1 and 3; the submission is at level 3. *)
Lemma later_level_on_scenario :
  isMyTurn (enhance (widerStore (blank formABA "PENDING_APPROVAL" 3 []))
                    userA (blank formABA "PENDING_APPROVAL" 3 [])) = false
  /\ checkApprover (widerStore (blank formABA "PENDING_APPROVAL" 3 []))
       flowABA (blank formABA "PENDING_APPROVAL" 3 []) userA = None.
Proof.
  destruct (later_level_of_the_same_user_is_not_my_turn
              (widerStore (blank formABA "PENDING_APPROVAL" 3 [])) userA
              (blank formABA "PENDING_APPROVAL" 3 [])
              (mkFlowEntry 1 (Some userA)) (mkFlowEntry 3 (Some userA)))
    as (Hturn & _ & _ & Hgate).
  - reflexivity.
  - reflexivity.
  - reflexivity.
  - reflexivity.
  - split; [exact Hturn | exact Hgate].
Defined.

(** The form whose level 1 has no approver, A at level 2. *)
Lemma dashboard_fails_on_scenario :
  getEmployeeStats (widerStore (blank formGap "PENDING_APPROVAL" 1 [])) userA
  = None.
Proof.
  apply (dashboard_fails_on_a_level_without_approver
           (widerStore (blank formGap "PENDING_APPROVAL" 1 [])) userA subId
           (blank formGap "PENDING_APPROVAL" 1 [])
           (mkTemplate None (Some flowGap) None None)
           [] [mkFlowEntry 2 (Some userA)] 1).
  - reflexivity.
  - reflexivity.
  - reflexivity.
  - apply list_elem_of_In. simpl. tauto.
  - reflexivity.
  - constructor.
Defined.

(** The dashboard of A before and after A's first approval. *)
Lemma counted_on_scenario :
  actionedBy userA approvedOnce = true
  /\ 1%nat = (0 + (if actionedBy userA pending1 then 0 else 1))%nat.
Proof.
  apply (accepted_action_is_counted clock (store pending1)
           (store approvedOnce) userA (act "approved") pending1 approvedOnce
           "Submission approved successfully" 1 0 0 1).
  - reflexivity.
  - reflexivity.
  - reflexivity.
  - reflexivity.
Defined.

(** The plant administrator lists without query parameters. *)
Lemma listing_on_scenario :
  matches (buildFilter plantAdmin noQuery) ofPlantP = true
  /\ plantId ofPlantP = Some plantP.
Proof.
  assert (Hm : matches (buildFilter plantAdmin noQuery) ofPlantP = true)
    by reflexivity.
  destruct (listing_is_confined_by_role plantAdmin noQuery ofPlantP Hm)
    as (Hplant & _).
  split; [exact Hm | exact (Hplant eq_refl)].
Defined.

(** The listing after the approval of A. *)
Lemma last_action_on_scenario :
  lastActionAt approvedOnce = Some (clock 0%nat)
  /\ lastApprovedBy (store approvedOnce) approvedOnce = Some "A".
Proof.
  apply (accepted_action_is_the_last_one_listed clock (store pending1)
           (store approvedOnce) userA (act "approved") approvedOnce
           "Submission approved successfully" (mkUser "A" "a@plant.test")).
  - reflexivity.
  - reflexivity.
  - discriminate.
Defined.

(** A new submission beside documents numbered 3 and 7 and one without
    number. *)
Lemma numerical_id_on_scenario :
  exists n, Hook.preSave None true [Some 3; None; Some 7] = Some n
            /\ (forall m, Some m ∈ [Some 3; None; Some 7] -> m < n).
Proof.
  destruct (numerical_id_is_fresh None true [Some 3; None; Some 7])
    as (Hnew & _ & _).
  destruct (Hnew (or_introl eq_refl) eq_refl) as (n & Hn & Hlt & _).
  - intros m Hm. apply list_elem_of_In in Hm. simpl in Hm.
    destruct Hm as [Hm | [Hm | [Hm | []]]]; try discriminate;
      injection Hm as <-; reflexivity.
  - exists n. split; assumption.
Defined.

(** B is the approver of position 1 of the flow A, B. *)
Lemma turn_on_scenario :
  (isMyTurn (enhance (store pending2) userB pending2) = true
   <-> currentLevel pending2 = Z.of_nat 1 + 1)
  /\ userLevel (enhance (store pending2) userB pending2)
     = Some (Z.of_nat 1 + 1).
Proof.
  apply (turn_belongs_to_the_approver_of_the_current_level (store pending2)
           pending2 [userA; userB] 1 userB).
  - reflexivity.
  - apply (bool_decide_unpack _). reflexivity.
  - apply people_are_users. repeat constructor; tauto.
  - reflexivity.
Defined.

(** C sets the status of the submission that waits for A to REJECTED. *)
Lemma gate_after_updateStatus_on_scenario :
  exists sub',
    submissions (updateStatus clock (store pending1) anyone subId
                   (mkStatusBody (Some "rejected") None)).2 !! subId
    = Some sub'
    /\ currentLevel sub' = 1.
Proof.
  destruct (updateStatus_leaves_the_gate_as_it_was clock (store pending1)
              anyone subId (mkStatusBody (Some "rejected") None) pending1
              eq_refl) as (sub' & Hsub & Hl & _).
  exists sub'. split; assumption.
Defined.

(** C fills the form, then A and B approve. *)
Lemma creation_to_approval_on_scenario :
  exists subF,
    submissions (final (store created) approvalsAB) !! subId = Some subF
    /\ status subF = "APPROVED"
    /\ currentLevel subF = 3
    /\ length (approvalHistory subF) = 2%nat.
Proof.
  destruct (created_submission_is_approved_after_all_levels clock subId []
              fresh anyone fill "Submission created successfully" created
              (store created) [userA; userB] approvalsAB)
    as (subF & HF & Hst & Hl & _ & Hlen & _).
  - reflexivity.
  - reflexivity.
  - discriminate.
  - discriminate.
  - reflexivity.
  - reflexivity.
  - apply people_are_users. repeat constructor; tauto.
  - exact approvalsAB_are_approvals.
  - exists subF. repeat split; assumption.
Defined.

End FurtherOnScenario.
